(** * The chat view of the anonymous pairing front-end

    A shallow embedding of [src/pages/index.tsx], which holds the landing
    page [Home] and the component [Chat].  React state hooks become the
    fields of a record, the objects the component talks to (the channel of
    the real-time provider, the peer connection, the media stream, the toast
    queue) become fields of a world record, and every handler of the
    component becomes a computation in a small state monad over that world,
    written statement by statement as in the source.  [Home] only mounts
    [Chat] and holds no state of the session, so the model starts at the
    freshly created chat view.  Durations and timestamps are whole numbers
    of magnitude at most [Js.MAX_SAFE_INTEGER], the range in which the
    arithmetic of the code's doubles is the exact arithmetic used here. *)

From Stdlib Require Import ZArith String Ascii List Bool Lia DecimalString.
Import ListNotations.
#[local] Set Warnings "-register-all".
#[local] Open Scope Z_scope.
#[local] Open Scope string_scope.

(** ** The JavaScript primitives the component uses *)

Module Js.

(** Values handed to [channel.trigger]. *)
Inductive value : Type :=
| undefined
| str (s : string)
| num (z : Z)
| obj (fields : list (string * value)).

(** [Number.MAX_SAFE_INTEGER], 2^53 - 1: up to this magnitude every whole
    number is a double, sums and differences of whole numbers are exact,
    and [toString] prints every digit. *)
Definition MAX_SAFE_INTEGER : Z := 9007199254740991.

(** [n.toString()] for a whole number of magnitude at most
    [MAX_SAFE_INTEGER]; larger numbers are printed by the code in other
    forms (rounded digits, exponent notation from 1e21). *)
Definition toString (z : Z) : string :=
  NilZero.string_of_int (Z.to_int z).

(** [n] characters read cyclically from [pad], continuing with [rest]. *)
Fixpoint cycle (n : nat) (pad rest : string) : string :=
  match n with
  | O => ""
  | S n' =>
      match rest with
      | String c r => String c (cycle n' pad r)
      | EmptyString =>
          match pad with
          | String c r => String c (cycle n' pad r)
          | EmptyString => ""
          end
      end
  end.

(** [s.padStart(targetLength, padString)]. *)
Definition padStart (targetLength : nat) (padString s : string) : string :=
  if (targetLength <=? String.length s)%nat then s
  else cycle (targetLength - String.length s) padString padString ++ s.

(** [Math.floor(a / b)] on whole numbers with [0 < b] and [a] of magnitude
    at most [MAX_SAFE_INTEGER], where the rounded quotient of the doubles
    has the floor of the exact quotient. *)
Definition floor_div (a b : Z) : Z := a / b.

(** [a % b]: the remainder takes the sign of the dividend. *)
Definition rem (a b : Z) : Z := Z.rem a b.

(** [!s] for a string: only the empty string is falsy. *)
Definition falsy (s : string) : bool :=
  match s with
  | EmptyString => true
  | String _ _ => false
  end.

End Js.

(** [formatTime], lines 146-150. *)
Definition formatTime (seconds : Z) : string :=
  let m := Js.padStart 2 "0" (Js.toString (Js.floor_div seconds 60)) in
  let s := Js.padStart 2 "0" (Js.toString (Js.rem seconds 60)) in
  m ++ ":" ++ s.

(** ** The objects the component holds or talks to *)

(** [useState<"text" | "video">("text")], line 46. *)
Inductive Mode : Type :=
| mode_text
| mode_video.

Definition Mode_eqb (a b : Mode) : bool :=
  match a, b with
  | mode_text, mode_text | mode_video, mode_video => true
  | _, _ => false
  end.

(** An entry of the message list, [{ from: string; text: string }]. *)
Record Message : Type := mkMessage {
  from : string;
  text : string }.

(** The seven state hooks of [Chat], lines 46-52. *)
Record ChatState : Type := mkChatState {
  mode : Mode;
  messages : list Message;
  status : string;
  input : string;
  time : Z;
  isBanned : bool;
  banTimeLeft : Z }.

(** A track of a media stream; [stop()] ends it. *)
Record MediaStreamTrack : Type := mkTrack {
  track_id : nat;
  track_ended : bool }.

Record MediaStream : Type := mkStream {
  stream_id : nat;
  getTracks : list MediaStreamTrack }.

Record SessionDescription : Type := mkSdp {
  sdp_type : string;
  sdp : string }.

Definition IceCandidate : Type := string.

(** The part of an [RTCPeerConnection] the component reads or writes.
    Tracks and streams are referred to by their identifiers, since the
    connection shares them with [localStream] and the video elements. *)
Record RTCPeerConnection : Type := mkPc {
  pc_closed : bool;
  pc_senders : list nat;
  pc_localDescription : option SessionDescription;
  pc_remoteDescription : option SessionDescription;
  pc_remoteCandidates : list IceCandidate }.

Record HTMLVideoElement : Type := mkVideo {
  videoWidth : Z;
  videoHeight : Z;
  srcObject : option nat;
  currentFrame : string }.

(** The canvas [captureReportFrame] creates; [drawn] is what [drawImage]
    has painted on it. *)
Record Canvas : Type := mkCanvas {
  width : Z;
  height : Z;
  drawn : option string }.

(** The channel object of the real-time provider: the events triggered on
    it so far, in order, and the event names handlers are bound to (one
    entry per [bind] call). *)
Record Channel : Type := mkChannel {
  triggered : list (string * Js.value);
  bound : list string }.

(** The argument of [toast]. *)
Record ToastOptions : Type := mkToast {
  title : string;
  toast_status : string;
  duration : Z }.

(** What the browser answers: whether a canvas yields a 2D context, the
    image it encodes, the clock, and the results the media and negotiation
    promises resolve to ([getUserMedia] is [None] when its promise is
    rejected). *)
Record Browser : Type := mkBrowser {
  getContext_2d : Canvas -> bool;
  toDataURL_jpeg : Canvas -> string;
  Date_now : Z;
  getUserMedia : option MediaStream;
  createOffer : RTCPeerConnection -> SessionDescription;
  createAnswer : RTCPeerConnection -> SessionDescription }.

(** Everything a handler of [Chat] can read or change.  [channel] comes
    from the provider context and may be absent.  [pc] and [localStream]
    are the [let] variables of lines 57-58 of the render whose effect bound
    the channel handlers: the variables that [initVideo], the signalling
    handlers, the client-disconnect handler and the cleanup close over,
    undefined until [initVideo] assigns them.  Every render declares these
    variables anew; see [on_screen] for the handlers of later renders. *)
Record World : Type := mkWorld {
  state : ChatState;
  channel : option Channel;
  localVideoRef : option HTMLVideoElement;
  remoteVideoRef : option HTMLVideoElement;
  pc : option RTCPeerConnection;
  localStream : option MediaStream;
  toasts : list ToastOptions }.

(** The world of a freshly created chat view: the initial values of the
    hooks, no channel yet, empty refs, unassigned variables. *)
Definition initialState : ChatState :=
  {| mode := mode_text; messages := []; status := "Looking for someone...";
     input := ""; time := 0; isBanned := false; banTimeLeft := 0 |}.

Definition initialWorld : World :=
  {| state := initialState; channel := None;
     localVideoRef := None; remoteVideoRef := None;
     pc := None; localStream := None; toasts := [] |}.

(** ** A state monad over the world *)

Definition M (A : Type) : Type := World -> A * World.

Definition ret {A : Type} (a : A) : M A := fun w => (a, w).

Definition bind {A B : Type} (m : M A) (k : A -> M B) : M B :=
  fun w => k (fst (m w)) (snd (m w)).

Declare Scope chat_scope.
Delimit Scope chat_scope with chat.
Notation "x <- m ;; k" := (bind m (fun x => k))
  (at level 61, m at next level, right associativity) : chat_scope.
Notation "m ;; k" := (bind m (fun _ => k))
  (at level 61, right associativity) : chat_scope.
#[local] Open Scope chat_scope.

(** The world a handler leaves behind. *)
Definition exec {A : Type} (m : M A) (w : World) : World := snd (m w).

Definition read {A : Type} (f : World -> A) : M A := fun w => (f w, w).

Definition modify (f : World -> World) : M unit := fun w => (tt, f w).

Definition when (b : bool) (m : M unit) : M unit :=
  if b then m else ret tt.

(** The state setters.  A setter called with an updater function applies it
    to the pending value, so a sequence of setters composes in order. *)
Definition with_state (f : ChatState -> ChatState) (w : World) : World :=
  {| state := f (state w); channel := channel w;
     localVideoRef := localVideoRef w; remoteVideoRef := remoteVideoRef w;
     pc := pc w; localStream := localStream w; toasts := toasts w |}.

Definition setMessages (f : list Message -> list Message) : M unit :=
  modify (with_state (fun s =>
    {| mode := mode s; messages := f (messages s); status := status s;
       input := input s; time := time s; isBanned := isBanned s;
       banTimeLeft := banTimeLeft s |})).

Definition setStatus (v : string) : M unit :=
  modify (with_state (fun s =>
    {| mode := mode s; messages := messages s; status := v;
       input := input s; time := time s; isBanned := isBanned s;
       banTimeLeft := banTimeLeft s |})).

Definition setInput (v : string) : M unit :=
  modify (with_state (fun s =>
    {| mode := mode s; messages := messages s; status := status s;
       input := v; time := time s; isBanned := isBanned s;
       banTimeLeft := banTimeLeft s |})).

Definition setTime (f : Z -> Z) : M unit :=
  modify (with_state (fun s =>
    {| mode := mode s; messages := messages s; status := status s;
       input := input s; time := f (time s); isBanned := isBanned s;
       banTimeLeft := banTimeLeft s |})).

Definition setIsBanned (v : bool) : M unit :=
  modify (with_state (fun s =>
    {| mode := mode s; messages := messages s; status := status s;
       input := input s; time := time s; isBanned := v;
       banTimeLeft := banTimeLeft s |})).

Definition setBanTimeLeft (v : Z) : M unit :=
  modify (with_state (fun s =>
    {| mode := mode s; messages := messages s; status := status s;
       input := input s; time := time s; isBanned := isBanned s;
       banTimeLeft := v |})).

(** [setBanTimeLeft((t) => ...)] with an updater that itself calls
    setters: the updater runs on the pending value and its result is
    stored. *)
Definition setBanTimeLeft_with (upd : Z -> M Z) : M unit :=
  t <- read (fun w => banTimeLeft (state w)) ;;
  v <- upd t ;;
  setBanTimeLeft v.

(** Writes to the objects outside the hooks. *)
Definition set_channel (c : option Channel) (w : World) : World :=
  {| state := state w; channel := c;
     localVideoRef := localVideoRef w; remoteVideoRef := remoteVideoRef w;
     pc := pc w; localStream := localStream w; toasts := toasts w |}.

Definition set_localVideoRef (v : option HTMLVideoElement) (w : World) : World :=
  {| state := state w; channel := channel w;
     localVideoRef := v; remoteVideoRef := remoteVideoRef w;
     pc := pc w; localStream := localStream w; toasts := toasts w |}.

Definition set_remoteVideoRef (v : option HTMLVideoElement) (w : World) : World :=
  {| state := state w; channel := channel w;
     localVideoRef := localVideoRef w; remoteVideoRef := v;
     pc := pc w; localStream := localStream w; toasts := toasts w |}.

Definition set_pc (p : option RTCPeerConnection) (w : World) : World :=
  {| state := state w; channel := channel w;
     localVideoRef := localVideoRef w; remoteVideoRef := remoteVideoRef w;
     pc := p; localStream := localStream w; toasts := toasts w |}.

Definition set_localStream (s : option MediaStream) (w : World) : World :=
  {| state := state w; channel := channel w;
     localVideoRef := localVideoRef w; remoteVideoRef := remoteVideoRef w;
     pc := pc w; localStream := s; toasts := toasts w |}.

(** [toast(options)]: the notice joins the queue the UI library shows. *)
Definition toast (t : ToastOptions) : M unit :=
  modify (fun w =>
    {| state := state w; channel := channel w;
       localVideoRef := localVideoRef w; remoteVideoRef := remoteVideoRef w;
       pc := pc w; localStream := localStream w; toasts := toasts w ++ [t] |}).

(** [channel?.trigger(event, data)]: nothing happens without a channel. *)
Definition Channel_trigger (event : string) (data : Js.value) (c : Channel) : Channel :=
  {| triggered := triggered c ++ [(event, data)]; bound := bound c |}.

Definition Channel_bind (event : string) (c : Channel) : Channel :=
  {| triggered := triggered c; bound := bound c ++ [event] |}.

Definition trigger (event : string) (data : Js.value) : M unit :=
  modify (fun w => set_channel (option_map (Channel_trigger event data) (channel w)) w).

Definition bind_handler (event : string) : M unit :=
  modify (fun w => set_channel (option_map (Channel_bind event) (channel w)) w).

(** ** The handlers of [Chat] *)

Definition looking : string := "Looking for someone...".
Definition connected : string := "Connected to stranger".
Definition disconnected : string := "Stranger disconnected".

(** The template literal [`You are banned (${formatTime(t)})`]. *)
Definition banned_status (t : Z) : string :=
  "You are banned (" ++ formatTime t ++ ")".

(** [t.stop()] and [pc.close()]. *)
Definition MediaStreamTrack_stop (t : MediaStreamTrack) : MediaStreamTrack :=
  {| track_id := track_id t; track_ended := true |}.

Definition stop_tracks (s : MediaStream) : MediaStream :=
  {| stream_id := stream_id s;
     getTracks := map MediaStreamTrack_stop (getTracks s) |}.

Definition RTCPeerConnection_close (p : RTCPeerConnection) : RTCPeerConnection :=
  {| pc_closed := true; pc_senders := pc_senders p;
     pc_localDescription := pc_localDescription p;
     pc_remoteDescription := pc_remoteDescription p;
     pc_remoteCandidates := pc_remoteCandidates p |}.

(** [stopVideo], lines 191-194. *)
Definition stopVideo : M unit :=
  ls <- read localStream ;;
  match ls with
  | Some s => modify (set_localStream (Some (stop_tracks s)))
  | None => ret tt
  end ;;
  p <- read pc ;;
  match p with
  | Some c => modify (set_pc (Some (RTCPeerConnection_close c)))
  | None => ret tt
  end.

(** A handler on screen is a closure of the latest render, with that
    render's own [pc] and [localStream].  [initVideo] is only ever called
    by the matched handler, which sets the status first, and it assigns its
    variables only after the media promise has resolved: by then a later
    render is on screen, whose variables nothing assigns.  So what a
    handler on screen calls runs with both variables undefined and leaves
    the assigned ones as they are.  (Only a channel replaced while the
    status already reads connected, with the button pressed before the
    next firing of the session timer, would let the two coincide.) *)
Definition on_screen (m : M unit) : M unit :=
  fun w =>
    (tt, set_localStream (localStream w)
           (set_pc (pc w)
              (exec m (set_localStream None (set_pc None w))))).

(** [handleNext], lines 63-69; it is the handler of the button on screen. *)
Definition handleNext : M unit :=
  trigger "client-next" Js.undefined ;;
  on_screen stopVideo ;;
  setMessages (fun _ => []) ;;
  setStatus looking ;;
  setTime (fun _ => 0).

(** [sendMessage], lines 74-79. *)
Definition sendMessage : M unit :=
  i <- read (fun w => input (state w)) ;;
  if Js.falsy i then ret tt
  else
    trigger "client-message" (Js.str i) ;;
    setMessages (fun m => (m ++ [{| from := "you"; text := i |}])%list) ;;
    setInput "".

(** [ctx.drawImage(video, 0, 0, canvas.width, canvas.height)]. *)
Definition drawImage (video : HTMLVideoElement) (c : Canvas) : Canvas :=
  {| width := width c; height := height c;
     drawn := Some (currentFrame video) |}.

(** The canvas of lines 87-89: created blank, sized to the video. *)
Definition canvas_for (video : HTMLVideoElement) : Canvas :=
  {| width := videoWidth video; height := videoHeight video; drawn := None |}.

(** [captureReportFrame], lines 84-94; [None] is the [null] result. *)
Definition captureReportFrame (B : Browser) : M (option string) :=
  r <- read remoteVideoRef ;;
  match r with
  | None => ret None
  | Some video =>
      let canvas := canvas_for video in
      if getContext_2d B canvas
      then ret (Some (toDataURL_jpeg B (drawImage video canvas)))
      else ret None
  end.

Definition no_video_toast : ToastOptions :=
  {| title := "No video to capture"; toast_status := "error"; duration := 2000 |}.

Definition reported_toast : ToastOptions :=
  {| title := "User reported"; toast_status := "success"; duration := 2000 |}.

(** The object literal of lines 100-104. *)
Definition report_payload (screenshot : string) (now : Z) : Js.value :=
  Js.obj [("screenshot", Js.str screenshot);
          ("reason", Js.str "Inappropriate behavior");
          ("timestamp", Js.num now)].

(** [reportUser], lines 96-106; [!screenshot] holds for [null] and for the
    empty string. *)
Definition reportUser (B : Browser) : M unit :=
  screenshot <- captureReportFrame B ;;
  match screenshot with
  | None => toast no_video_toast
  | Some url =>
      if Js.falsy url then toast no_video_toast
      else
        trigger "client-report" (report_payload url (Date_now B)) ;;
        toast reported_toast
  end.

(** The handler bound to [banned], lines 113-117. *)
Definition on_banned (d : Z) : M unit :=
  setIsBanned true ;;
  setBanTimeLeft d ;;
  setStatus (banned_status d).

(** The updater of lines 123-132.  [clearInterval] leaves no trace of its
    own: the interval lives exactly as long as the effect of lines 120-135,
    which is while [isBanned] holds.  [t - 1] is the code's difference for
    [t] up to [Js.MAX_SAFE_INTEGER]; above it the code's double is rounded. *)
Definition ban_updater (t : Z) : M Z :=
  if (t <=? 1)%Z then
    setIsBanned false ;;
    setStatus looking ;;
    ret 0
  else
    setStatus (banned_status (t - 1)) ;;
    ret (t - 1).

(** One firing of the interval of lines 122-133; there is no interval
    unless [isBanned] holds. *)
Definition banTick : M unit :=
  b <- read (fun w => isBanned (state w)) ;;
  when b (setBanTimeLeft_with ban_updater).

(** One firing of the session timer, lines 140-144. *)
Definition timerTick : M unit :=
  s <- read (fun w => status (state w)) ;;
  when (String.eqb s connected) (setTime (fun t => t + 1)).

(** ** Video negotiation, lines 155-189

    An [async] function is run to its end in one step, the results of the
    promises it awaits being those of the [Browser]; a method of a closed or
    unassigned connection throws, which ends the function there. *)

Definition new_RTCPeerConnection : RTCPeerConnection :=
  {| pc_closed := false; pc_senders := [];
     pc_localDescription := None; pc_remoteDescription := None;
     pc_remoteCandidates := [] |}.

Definition addTrack (p : RTCPeerConnection) (t : MediaStreamTrack) : RTCPeerConnection :=
  {| pc_closed := pc_closed p; pc_senders := (pc_senders p ++ [track_id t])%list;
     pc_localDescription := pc_localDescription p;
     pc_remoteDescription := pc_remoteDescription p;
     pc_remoteCandidates := pc_remoteCandidates p |}.

Definition setLocalDescription (d : SessionDescription) (p : RTCPeerConnection) : RTCPeerConnection :=
  {| pc_closed := pc_closed p; pc_senders := pc_senders p;
     pc_localDescription := Some d;
     pc_remoteDescription := pc_remoteDescription p;
     pc_remoteCandidates := pc_remoteCandidates p |}.

Definition setRemoteDescription (d : SessionDescription) (p : RTCPeerConnection) : RTCPeerConnection :=
  {| pc_closed := pc_closed p; pc_senders := pc_senders p;
     pc_localDescription := pc_localDescription p;
     pc_remoteDescription := Some d;
     pc_remoteCandidates := pc_remoteCandidates p |}.

Definition addIceCandidate (c : IceCandidate) (p : RTCPeerConnection) : RTCPeerConnection :=
  {| pc_closed := pc_closed p; pc_senders := pc_senders p;
     pc_localDescription := pc_localDescription p;
     pc_remoteDescription := pc_remoteDescription p;
     pc_remoteCandidates := (pc_remoteCandidates p ++ [c])%list |}.

Definition set_srcObject (s : nat) (v : HTMLVideoElement) : HTMLVideoElement :=
  {| videoWidth := videoWidth v; videoHeight := videoHeight v;
     srcObject := Some s; currentFrame := currentFrame v |}.

Definition description_value (d : SessionDescription) : Js.value :=
  Js.obj [("type", Js.str (sdp_type d)); ("sdp", Js.str (sdp d))].

(** [initVideo], lines 155-189. *)
Definition initVideo (B : Browser) : M unit :=
  r <- read remoteVideoRef ;;
  l <- read localVideoRef ;;
  match r, l, getUserMedia B with
  | Some _, Some lv, Some stream =>
      modify (set_localStream (Some stream)) ;;
      modify (set_localVideoRef (Some (set_srcObject (stream_id stream) lv))) ;;
      let p := fold_left addTrack (getTracks stream) new_RTCPeerConnection in
      modify (set_pc (Some p)) ;;
      bind_handler "client-offer" ;;
      bind_handler "client-answer" ;;
      bind_handler "client-ice" ;;
      let offer := createOffer B p in
      modify (set_pc (Some (setLocalDescription offer p))) ;;
      trigger "client-offer" (description_value offer)
  | _, _, _ => ret tt
  end.

(** [pc.ontrack], lines 163-165. *)
Definition pc_ontrack (stream : nat) : M unit :=
  r <- read remoteVideoRef ;;
  match r with
  | Some v => modify (set_remoteVideoRef (Some (set_srcObject stream v)))
  | None => ret tt
  end.

(** [pc.onicecandidate], lines 167-169. *)
Definition pc_onicecandidate (candidate : option IceCandidate) : M unit :=
  match candidate with
  | Some c => trigger "client-ice" (Js.str c)
  | None => ret tt
  end.

(** The handler bound to [client-offer], lines 171-176. *)
Definition on_client_offer (B : Browser) (offer : SessionDescription) : M unit :=
  p <- read pc ;;
  match p with
  | Some c =>
      if pc_closed c then ret tt
      else
        let c1 := setRemoteDescription offer c in
        let answer := createAnswer B c1 in
        modify (set_pc (Some (setLocalDescription answer c1))) ;;
        trigger "client-answer" (description_value answer)
  | None => ret tt
  end.

(** The handler bound to [client-answer], lines 178-180. *)
Definition on_client_answer (answer : SessionDescription) : M unit :=
  p <- read pc ;;
  match p with
  | Some c =>
      if pc_closed c then ret tt
      else modify (set_pc (Some (setRemoteDescription answer c)))
  | None => ret tt
  end.

(** The handler bound to [client-ice], lines 182-184. *)
Definition on_client_ice (candidate : IceCandidate) : M unit :=
  p <- read pc ;;
  match p with
  | Some c =>
      if pc_closed c then ret tt
      else modify (set_pc (Some (addIceCandidate candidate c)))
  | None => ret tt
  end.

(** ** The handlers of the channel effect, lines 199-219 *)

Definition on_matched (B : Browser) : M unit :=
  setStatus connected ;;
  m <- read (fun w => mode (state w)) ;;
  when (Mode_eqb m mode_video) (initVideo B).

Definition on_client_message (msg : string) : M unit :=
  setMessages (fun m => (m ++ [{| from := "stranger"; text := msg |}])%list).

Definition on_client_disconnect : M unit :=
  setStatus disconnected ;;
  m <- read (fun w => mode (state w)) ;;
  when (Mode_eqb m mode_video) stopVideo.

(** The cleanup the channel effect returns, lines 216-218. *)
Definition channel_cleanup : M unit :=
  m <- read (fun w => mode (state w)) ;;
  when (Mode_eqb m mode_video) stopVideo.

(** The bodies of the two effects that depend on [channel], lines 111-118
    and 199-219: without a channel nothing is bound. *)
Definition channel_effects : M unit :=
  c <- read channel ;;
  match c with
  | None => ret tt
  | Some _ =>
      bind_handler "banned" ;;
      bind_handler "matched" ;;
      bind_handler "client-message" ;;
      bind_handler "client-disconnect"
  end.

(** ** The chat view as a transition system *)

(** Events the channel delivers, with their payloads. *)
Inductive Inbound : Type :=
| In_matched
| In_client_message (msg : string)
| In_client_disconnect
| In_banned (d : Z)
| In_client_offer (offer : SessionDescription)
| In_client_answer (answer : SessionDescription)
| In_client_ice (candidate : IceCandidate).

Definition event_name (e : Inbound) : string :=
  match e with
  | In_matched => "matched"
  | In_client_message _ => "client-message"
  | In_client_disconnect => "client-disconnect"
  | In_banned _ => "banned"
  | In_client_offer _ => "client-offer"
  | In_client_answer _ => "client-answer"
  | In_client_ice _ => "client-ice"
  end.

Definition handler (B : Browser) (e : Inbound) : M unit :=
  match e with
  | In_matched => on_matched B
  | In_client_message msg => on_client_message msg
  | In_client_disconnect => on_client_disconnect
  | In_banned d => on_banned d
  | In_client_offer o => on_client_offer B o
  | In_client_answer a => on_client_answer a
  | In_client_ice c => on_client_ice c
  end.

Fixpoint times (n : nat) (m : M unit) : M unit :=
  match n with
  | O => ret tt
  | S n' => m ;; times n' m
  end.

(** The channel calls the handler of an event once for each [bind] made
    for its name; without a channel no event arrives. *)
Definition receive (B : Browser) (e : Inbound) : M unit :=
  c <- read channel ;;
  match c with
  | None => ret tt
  | Some ch => times (count_occ string_dec (bound ch) (event_name e)) (handler B e)
  end.

(** The provider context hands over a channel: the cleanup of the previous
    channel effect runs if there was one, then both effects run again. *)
Definition provide_channel : M unit :=
  c <- read channel ;;
  match c with
  | None => ret tt
  | Some _ => channel_cleanup
  end ;;
  modify (set_channel (Some {| triggered := []; bound := [] |})) ;;
  channel_effects.

(** Everything that can happen to a mounted chat view. *)
Inductive Action : Type :=
| Channel_provided
| Click_next
| Click_send
| Key_enter
| Click_report
| Input_change (v : string)
| Interval_ban
| Interval_timer
| Receive (e : Inbound)
| Pc_track (stream : nat)
| Pc_icecandidate (candidate : option IceCandidate)
| Unmount.

Definition step (B : Browser) (a : Action) : M unit :=
  match a with
  | Channel_provided => provide_channel
  | Click_next => handleNext
  | Click_send => sendMessage
  | Key_enter => sendMessage
  | Click_report => reportUser B
  | Input_change v => setInput v
  | Interval_ban => banTick
  | Interval_timer => timerTick
  | Receive e => receive B e
  | Pc_track s => pc_ontrack s
  | Pc_icecandidate c => pc_onicecandidate c
  | Unmount => channel_cleanup
  end.

(** The world after a sequence of actions, oldest first. *)
Definition run (B : Browser) (l : list Action) (w : World) : World :=
  fold_left (fun w a => exec (step B a) w) l w.

(** ** Observations on worlds *)

(** The events triggered on the channel so far; none without a channel. *)
Definition outbox (w : World) : list (string * Js.value) :=
  match channel w with
  | Some c => triggered c
  | None => []
  end.

(** A handler [keeps] a relation between worlds when the world it leaves
    is related to the one it started from. *)
Definition keeps (R : World -> World -> Prop) {A : Type} (m : M A) : Prop :=
  forall w, R w (snd (m w)).

(** The mode after is the mode before. *)
Definition same_mode (w w' : World) : Prop :=
  mode (state w') = mode (state w).

(** The client-report events on the channel after were there before. *)
Definition no_new_report (w w' : World) : Prop :=
  forall data,
    In ("client-report", data) (outbox w') ->
    In ("client-report", data) (outbox w).




(** A text-mode view with no video element mounted and the variables of
    lines 57-58 unassigned. *)
Definition text_idle (w : World) : Prop :=
  mode (state w) = mode_text /\
  localVideoRef w = None /\
  remoteVideoRef w = None /\
  pc w = None /\
  localStream w = None.

(** A text-idle world is left text-idle. *)
Definition stays_text_idle (w w' : World) : Prop :=
  text_idle w -> text_idle w'.



(** The decimal digit [n] as a character. *)
Definition digit (n : Z) : ascii := ascii_of_nat (48 + Z.to_nat n).

(** Two digits of minutes, a colon, two digits of seconds. *)
Definition mmss (d : Z) : string :=
  String (digit (d / 600))
    (String (digit (d / 60 mod 10))
       (String ":"
          (String (digit (d mod 60 / 10))
             (String (digit (d mod 10)) "")))).

Definition formatTime_is_mmss (n : nat) : bool :=
  String.eqb (formatTime (Z.of_nat n)) (mmss (Z.of_nat n)).

(** ** What the view shows, lines 224-264 *)

(** The text of the status bar, line 227: the status, a space, and the
    elapsed time only while connected. *)
Definition header (s : ChatState) : string :=
  status s ++ " "
  ++ (if String.eqb (status s) connected then "| " ++ formatTime (time s) else "").

(** The alignment of a message, line 233. *)
Definition textAlign (m : Message) : string :=
  if String.eqb (from m) "you" then "right" else "left".

(** The message list as shown, lines 230-238: in text mode one entry per
    message, in order, with its alignment and text; nothing in video mode. *)
Definition bubbles (s : ChatState) : list (string * string) :=
  match mode s with
  | mode_text => map (fun m => (textAlign m, text m)) (messages s)
  | mode_video => []
  end.

(** ** The landing page [Home], lines 8-35 *)

Module Home.

(** The state hook [redirectToChat] and the flag behind [setStartPusher]
    of the provider context. *)
Record State : Type := mkState {
  redirectToChat : bool;
  startPusher : bool }.

(** What [Home] renders below the header, lines 27-31. *)
Inductive View : Type :=
| Chat_view
| Start_button.

Definition setStartPusher (v : bool) (s : State) : State :=
  {| redirectToChat := redirectToChat s; startPusher := v |}.

Definition setRedirectToChat (v : bool) (s : State) : State :=
  {| redirectToChat := v; startPusher := startPusher s |}.

(** [onSubmit], lines 13-17. *)
Definition onSubmit (s : State) : State :=
  setRedirectToChat true (setStartPusher true s).

Definition render (s : State) : View :=
  if redirectToChat s then Chat_view else Start_button.

(** The page after a number of clicks on the start button. *)
Fixpoint clicks (n : nat) (s : State) : State :=
  match n with
  | O => s
  | S n' => clicks n' (onSubmit s)
  end.

End Home.

(** ** Which actions can occur *)

(** The callbacks of lines 163-169 are installed on a connection, so they
    fire only once [initVideo] has created one; every other action can
    occur at any time (the handlers themselves check for the channel, the
    ban and the status). *)
Definition possible (a : Action) (w : World) : bool :=
  match a with
  | Pc_track _ | Pc_icecandidate _ =>
      match pc w with
      | Some _ => true
      | None => false
      end
  | _ => true
  end.

(** The worlds a chat view can be in, from its creation on.  The video
    elements of lines 242-243 are rendered in video mode only, so in a view
    created in text mode no action mounts them. *)
Inductive reachable (B : Browser) : World -> Prop :=
| reachable_init : reachable B initialWorld
| reachable_step (a : Action) (w : World) :
    reachable B w -> possible a w = true -> reachable B (exec (step B a) w).

(** The world with another ban state. *)
Definition with_ban (b : bool) (t : Z) (w : World) : World :=
  with_state (fun s =>
    {| mode := mode s; messages := messages s; status := status s;
       input := input s; time := time s; isBanned := b;
       banTimeLeft := t |}) w.

(** The world with another session time. *)
Definition with_time (t : Z) (w : World) : World :=
  with_state (fun s =>
    {| mode := mode s; messages := messages s; status := status s;
       input := input s; time := t; isBanned := isBanned s;
       banTimeLeft := banTimeLeft s |}) w.

(** Actions whose handler never reads or writes the ban state: all but
    the ban interval and the banned event. *)
Definition ban_blind (a : Action) : bool :=
  match a with
  | Interval_ban => false
  | Receive (In_banned _) => false
  | _ => true
  end.

(** The message list after is the list before with more at its end. *)
Definition messages_extended (w w' : World) : Prop :=
  exists more, messages (state w') = (messages (state w) ++ more)%list.

(** The session time is untouched. *)
Definition same_time (w w' : World) : Prop :=
  time (state w') = time (state w).

(** Every event on the channel after was there before or is a client-next
    or a client-message. *)
Definition only_text_events (w w' : World) : Prop :=
  forall e, In e (outbox w') ->
    In e (outbox w) \/ fst e = "client-next" \/ fst e = "client-message".

(** A text-idle world is left text-idle, with text events only. *)
Definition stays_text_only (w w' : World) : Prop :=
  text_idle w -> text_idle w' /\ only_text_events w w'.

(** The events of the signalling exchange. *)
Definition is_signalling (e : Inbound) : bool :=
  match e with
  | In_client_offer _ | In_client_answer _ | In_client_ice _ => true
  | _ => false
  end.

(** The connection of lines 160-161 once every track of the stream has
    been added to it: open, nothing negotiated yet. *)
Definition connection_with_tracks (s : MediaStream) : RTCPeerConnection :=
  {| pc_closed := false; pc_senders := map track_id (getTracks s);
     pc_localDescription := None; pc_remoteDescription := None;
     pc_remoteCandidates := [] |}.

(** The channel after [initVideo] has bound its three handlers and sent
    the offer. *)
Definition Channel_negotiating (offer : SessionDescription) (c : Channel) : Channel :=
  {| triggered := (triggered c ++ [("client-offer", description_value offer)])%list;
     bound := (bound c ++ ["client-offer"; "client-answer"; "client-ice"])%list |}.

(** The four kinds of status text the component ever sets. *)
Definition known_status (s : string) : Prop :=
  s = looking \/ s = connected \/ s = disconnected \/
  exists t, s = banned_status t.

(** A known status is left known. *)
Definition stays_known_status (w w' : World) : Prop :=
  known_status (status (state w)) -> known_status (status (state w')).

(** Without an active ban no seconds remain. *)
Definition ban_consistent (w : World) : Prop :=
  isBanned (state w) = false -> banTimeLeft (state w) = 0.

(** The queue of notices is untouched. *)
Definition same_toasts (w w' : World) : Prop :=
  toasts w' = toasts w.

(** The message a stranger's text becomes, line 208. *)
Definition from_stranger (msg : string) : Message :=
  {| from := "stranger"; text := msg |}.

(** ** Sample browsers and worlds *)

(** A browser that always yields a 2D context and encodes what was drawn. *)
Definition sample_browser : Browser :=
  {| getContext_2d := fun _ => true;
     toDataURL_jpeg := fun c =>
       match drawn c with
       | Some f => "data:image/jpeg;base64," ++ f
       | None => "data:,"
       end;
     Date_now := 1700000000000;
     getUserMedia :=
       Some {| stream_id := 1%nat;
               getTracks := [ {| track_id := 10%nat; track_ended := false |};
                              {| track_id := 11%nat; track_ended := false |} ] |};
     createOffer := fun _ => {| sdp_type := "offer"; sdp := "v=0" |};
     createAnswer := fun _ => {| sdp_type := "answer"; sdp := "v=0" |} |}.

Definition sample_video : HTMLVideoElement :=
  {| videoWidth := 640; videoHeight := 480; srcObject := Some 2%nat;
     currentFrame := "/9j/4AAQ" |}.

(** The view once the provider has delivered a channel. *)
Definition with_channel : World :=
  run sample_browser [Channel_provided] initialWorld.

(** A user who has typed "hi" before the provider delivered a channel. *)
Definition typed_before_channel : World :=
  run sample_browser [Input_change "hi"] initialWorld.

(** A user who has typed "hi" with the channel in place. *)
Definition typed_with_channel : World :=
  run sample_browser [Channel_provided; Input_change "hi"] initialWorld.

(** A user the server has just banned for zero, one and ninety seconds. *)
Definition banned_for_zero : World :=
  run sample_browser [Channel_provided; Receive (In_banned 0)] initialWorld.

Definition banned_for_one : World :=
  run sample_browser [Channel_provided; Receive (In_banned 1)] initialWorld.

Definition banned_for_ninety : World :=
  run sample_browser [Channel_provided; Receive (In_banned 90)] initialWorld.


(** A chat view with a channel showing a remote video. *)
Definition watching : World :=
  set_remoteVideoRef (Some sample_video) with_channel.

(** A video session in progress: video mode, both video elements mounted,
    a channel, and the match event handled, so that [initVideo] has
    assigned the stream and the connection and sent its offer. *)
Definition video_view : World :=
  {| state := {| mode := mode_video; messages := []; status := looking;
                 input := ""; time := 0; isBanned := false; banTimeLeft := 0 |};
     channel := Some {| triggered := []; bound := ["banned"; "matched";
                          "client-message"; "client-disconnect"] |};
     localVideoRef := Some {| videoWidth := 640; videoHeight := 480;
                              srcObject := None; currentFrame := "" |};
     remoteVideoRef := Some sample_video;
     pc := None; localStream := None; toasts := [] |}.


(** * Properties *)

(** ** [formatTime] *)

Example formatTime_75 : formatTime 75 = "01:15".
Proof. reflexivity. Qed.

Example formatTime_0 : formatTime 0 = "00:00".
Proof. reflexivity. Qed.

Example formatTime_3599 : formatTime 3599 = "59:59".
Proof. reflexivity. Qed.

Example formatTime_6000 : formatTime 6000 = "100:00".
Proof. reflexivity. Qed.

Lemma formatTime_mmss_checked :
  forallb formatTime_is_mmss (seq 0 (Z.to_nat 6000)) = true.
Proof. vm_compute. reflexivity. Qed.

(** X1: below one hundred minutes [formatTime] yields exactly two digits
    of minutes, a colon and two digits of seconds. *)
Lemma formatTime_mmss (d : Z) :
  0 <= d < 6000 -> formatTime d = mmss d.
Proof.
  intros Hd.
  pose proof formatTime_mmss_checked as Hall.
  rewrite forallb_forall in Hall.
  specialize (Hall (Z.to_nat d)).
  unfold formatTime_is_mmss in Hall.
  rewrite Z2Nat.id in Hall by lia.
  apply String.eqb_eq, Hall, in_seq. lia.
Qed.

(** ** The handlers, computed out *)

Ltac world_cases w :=
  destruct w as [[? ? ? ? ? ? ?] [?|] ? ? [?|] [?|] ?].

Lemma falsy_false (s : string) : s <> "" -> Js.falsy s = false.
Proof. destruct s; [congruence | reflexivity]. Qed.

(** [stopVideo]: tracks ended and connection closed, where assigned. *)
Lemma stopVideo_world (w : World) :
  exec stopVideo w =
  set_pc (option_map RTCPeerConnection_close (pc w))
    (set_localStream (option_map stop_tracks (localStream w)) w).
Proof. world_cases w; reflexivity. Qed.

(** With the variables unassigned, as in a closure made by a render that
    never ran [initVideo], [stopVideo] finds nothing to stop. *)
Lemma stopVideo_unassigned (w : World) :
  pc w = None -> localStream w = None -> exec stopVideo w = w.
Proof.
  intros Hp Hs. rewrite stopVideo_world, Hp, Hs.
  destruct w; cbn in *; subst; reflexivity.
Qed.

(** On screen [stopVideo] finds both variables undefined and does
    nothing. *)
Lemma on_screen_stopVideo (w : World) : on_screen stopVideo w = (tt, w).
Proof. destruct w. reflexivity. Qed.

(** [handleNext]: the world it leaves, field by field. *)
Lemma handleNext_world (w : World) :
  exec handleNext w =
  {| state :=
       {| mode := mode (state w); messages := []; status := looking;
          input := input (state w); time := 0;
          isBanned := isBanned (state w);
          banTimeLeft := banTimeLeft (state w) |};
     channel := option_map (Channel_trigger "client-next" Js.undefined) (channel w);
     localVideoRef := localVideoRef w;
     remoteVideoRef := remoteVideoRef w;
     pc := pc w;
     localStream := localStream w;
     toasts := toasts w |}.
Proof. world_cases w; reflexivity. Qed.

(** "Next" leaves the connection and the stream of the channel handlers
    as they are. *)
Lemma handleNext_leaves_video (w : World) :
  pc (exec handleNext w) = pc w /\
  localStream (exec handleNext w) = localStream w.
Proof. rewrite handleNext_world. split; reflexivity. Qed.

(** [sendMessage] with a non-empty input. *)
Lemma sendMessage_world (w : World) :
  input (state w) <> "" ->
  exec sendMessage w =
  {| state :=
       {| mode := mode (state w);
          messages := (messages (state w)
                       ++ [{| from := "you"; text := input (state w) |}])%list;
          status := status (state w); input := ""; time := time (state w);
          isBanned := isBanned (state w);
          banTimeLeft := banTimeLeft (state w) |};
     channel := option_map
                  (Channel_trigger "client-message" (Js.str (input (state w))))
                  (channel w);
     localVideoRef := localVideoRef w;
     remoteVideoRef := remoteVideoRef w;
     pc := pc w; localStream := localStream w; toasts := toasts w |}.
Proof.
  intros Hin. apply falsy_false in Hin.
  unfold exec, sendMessage, bind, read. cbn [fst snd]. rewrite Hin.
  world_cases w; reflexivity.
Qed.

(** [sendMessage] with an empty input. *)
Lemma sendMessage_empty_noop_helper (w : World) :
  input (state w) = "" -> exec sendMessage w = w.
Proof.
  intros Hin. unfold exec, sendMessage, bind, read. cbn [fst snd].
  rewrite Hin. reflexivity.
Qed.

(** One firing of the ban interval while the ban is active. *)
Lemma banTick_world (w : World) :
  isBanned (state w) = true ->
  exec banTick w =
  with_state (fun s =>
    {| mode := mode s; messages := messages s;
       status := if (banTimeLeft s <=? 1)%Z then looking
                 else banned_status (banTimeLeft s - 1);
       input := input s; time := time s;
       isBanned := if (banTimeLeft s <=? 1)%Z then false else true;
       banTimeLeft := if (banTimeLeft s <=? 1)%Z then 0
                      else banTimeLeft s - 1 |}) w.
Proof.
  intros Hb.
  destruct w as [[md ms st i tm b t] c lv rv p ls ts]. cbn in Hb. subst b.
  unfold exec, banTick, setBanTimeLeft_with, ban_updater, bind, read, when,
    setStatus, setIsBanned, setBanTimeLeft, modify, ret, with_state.
  cbn -[Z.leb Z.sub banned_status].
  destruct (t <=? 1)%Z; reflexivity.
Qed.

(** With the ban inactive there is no interval: a firing changes nothing. *)
Lemma banTick_inactive (w : World) :
  isBanned (state w) = false -> exec banTick w = w.
Proof.
  intros Hb. unfold exec, banTick, bind, read, when. cbn [fst snd].
  rewrite Hb. reflexivity.
Qed.

(** What [captureReportFrame] returns, by the state of the remote video;
    it changes nothing. *)
Lemma captureReportFrame_result (B : Browser) (w : World) :
  fst (captureReportFrame B w) =
  match remoteVideoRef w with
  | None => None
  | Some v =>
      if getContext_2d B (canvas_for v)
      then Some (toDataURL_jpeg B (drawImage v (canvas_for v)))
      else None
  end.
Proof.
  unfold captureReportFrame, bind, read. cbn.
  destruct (remoteVideoRef w); cbn; [ | reflexivity].
  destruct (getContext_2d B _); reflexivity.
Qed.

Lemma captureReportFrame_pure (B : Browser) (w : World) :
  snd (captureReportFrame B w) = w.
Proof.
  unfold captureReportFrame, bind, read. cbn.
  destruct (remoteVideoRef w); cbn; [ | reflexivity].
  destruct (getContext_2d B _); reflexivity.
Qed.

(** [reportUser] when no frame can be captured. *)
Lemma reportUser_no_frame (B : Browser) (w : World) :
  fst (captureReportFrame B w) = None \/ fst (captureReportFrame B w) = Some "" ->
  exec (reportUser B) w = exec (toast no_video_toast) w.
Proof.
  intros H. unfold exec, reportUser, bind. cbn [fst snd].
  rewrite captureReportFrame_pure.
  destruct H as [-> | ->]; reflexivity.
Qed.

(** [reportUser] when a frame is captured. *)
Lemma reportUser_frame (B : Browser) (w : World) (url : string) :
  fst (captureReportFrame B w) = Some url -> url <> "" ->
  exec (reportUser B) w =
  exec (toast reported_toast)
    (exec (trigger "client-report" (report_payload url (Date_now B))) w).
Proof.
  intros H Hne. unfold exec, reportUser, bind. cbn [fst snd].
  rewrite captureReportFrame_pure, H, (falsy_false url Hne). reflexivity.
Qed.


(** An event whose name is bound once runs its handler once. *)
Lemma receive_once (B : Browser) (e : Inbound) (w : World) (c : Channel) :
  channel w = Some c ->
  count_occ string_dec (bound c) (event_name e) = 1%nat ->
  exec (receive B e) w = exec (handler B e) w.
Proof.
  intros Hc Hn. unfold exec, receive, bind, read. cbn [fst snd].
  rewrite Hc, Hn. reflexivity.
Qed.

(** Repeating a handler once more is running it once after the others. *)
Lemma times_succ_last (n : nat) (m : M unit) (w : World) :
  exec (times (S n) m) w = exec m (exec (times n m) w).
Proof.
  revert w. induction n as [| n IH]; intros w.
  - reflexivity.
  - change (exec (times (S (S n)) m) w)
      with (exec (times (S n) m) (exec m w)).
    rewrite IH. reflexivity.
Qed.

(** ** The countdown as a whole *)

(** While more seconds remain than ticks have fired, the ban is active and
    each tick has taken one second off. *)
Lemma ban_countdown_runs (k : nat) (w : World) :
  isBanned (state w) = true ->
  Z.of_nat k < banTimeLeft (state w) ->
  isBanned (state (exec (times k banTick) w)) = true /\
  banTimeLeft (state (exec (times k banTick) w))
    = banTimeLeft (state w) - Z.of_nat k.
Proof.
  induction k as [| k IH]; intros Hb Hk.
  - cbn. split; [exact Hb | lia].
  - rewrite times_succ_last.
    destruct IH as [Hb' Ht']; [exact Hb | lia | ].
    rewrite (banTick_world _ Hb'). cbn -[Z.leb Z.sub banned_status Z.of_nat].
    rewrite Ht'.
    destruct (Z.leb_spec (banTimeLeft (state w) - Z.of_nat k) 1); [lia | ].
    split; [reflexivity | lia].
Qed.

(** A ban of [d >= 1] seconds is over after exactly [d] ticks. *)
Lemma ban_expires (w : World) :
  isBanned (state w) = true ->
  1 <= banTimeLeft (state w) ->
  isBanned (state (exec (times (Z.to_nat (banTimeLeft (state w))) banTick) w))
    = false /\
  banTimeLeft (state (exec (times (Z.to_nat (banTimeLeft (state w))) banTick) w))
    = 0 /\
  status (state (exec (times (Z.to_nat (banTimeLeft (state w))) banTick) w))
    = looking.
Proof.
  intros Hb Hd.
  replace (Z.to_nat (banTimeLeft (state w)))
    with (S (Z.to_nat (banTimeLeft (state w) - 1))) by lia.
  rewrite times_succ_last.
  destruct (ban_countdown_runs (Z.to_nat (banTimeLeft (state w) - 1)) w Hb)
    as [Hb' Ht']; [lia | ].
  rewrite (banTick_world _ Hb'). cbn -[Z.leb Z.sub banned_status Z.to_nat].
  rewrite Ht'.
  destruct (Z.leb_spec
              (banTimeLeft (state w) - Z.of_nat (Z.to_nat (banTimeLeft (state w) - 1)))
              1); [ | lia].
  repeat split.
Qed.

(** ** Relations every handler keeps

    For a preorder, keeping is closed under the operations of the monad, so
    a handler keeps what each of its statements keeps. *)

Section Keeps.

Variable R : World -> World -> Prop.
Hypothesis R_refl : forall w, R w w.
Hypothesis R_trans : forall a b c, R a b -> R b c -> R a c.

Lemma keeps_ret {A : Type} (a : A) : keeps R (ret a).
Proof. intros w. apply R_refl. Qed.

Lemma keeps_read {A : Type} (f : World -> A) : keeps R (read f).
Proof. intros w. apply R_refl. Qed.

Lemma keeps_bind {A B : Type} (m : M A) (k : A -> M B) :
  keeps R m -> (forall a, keeps R (k a)) -> keeps R (bind m k).
Proof.
  intros Hm Hk w. unfold bind. cbn.
  eapply R_trans; [apply Hm | apply Hk].
Qed.

Lemma keeps_when (b : bool) (m : M unit) : keeps R m -> keeps R (when b m).
Proof. intros Hm. destruct b; [exact Hm | apply keeps_ret]. Qed.

Lemma keeps_times (n : nat) (m : M unit) : keeps R m -> keeps R (times n m).
Proof.
  intros Hm. induction n as [| n IH]; cbn [times].
  - apply keeps_ret.
  - apply keeps_bind; [exact Hm | intros _; exact IH].
Qed.

Lemma keeps_modify (f : World -> World) :
  (forall w, R w (f w)) -> keeps R (modify f).
Proof. intros Hf w. apply Hf. Qed.

Lemma keeps_on_screen_stopVideo : keeps R (on_screen stopVideo).
Proof. intros w. rewrite on_screen_stopVideo. apply R_refl. Qed.

Lemma keeps_run (B : Browser) :
  (forall a, keeps R (step B a)) ->
  forall l w, R w (run B l w).
Proof.
  intros Hstep l. induction l as [| a l IH]; intros w; cbn [run fold_left].
  - apply R_refl.
  - eapply R_trans; [apply (Hstep a w) | apply IH].
Qed.

End Keeps.

(** Splits a handler into its statements, leaving the writes as goals. *)
Ltac keeps_split Hrefl Htrans :=
  repeat match goal with
    | |- keeps _ (bind _ _) => apply (keeps_bind _ Htrans); [ | intro ]
    | |- keeps _ (ret _) => apply (keeps_ret _ Hrefl)
    | |- keeps _ (read _) => apply (keeps_read _ Hrefl)
    | |- keeps _ (when _ _) => apply (keeps_when _ Hrefl)
    | |- keeps _ (times _ _) => apply (keeps_times _ Hrefl Htrans)
    | |- keeps _ (modify _) => apply keeps_modify; intro
    | |- keeps _ (on_screen stopVideo) =>
        apply (keeps_on_screen_stopVideo _ Hrefl)
    | |- keeps _ (match ?x with _ => _ end) => destruct x
    end.

(** *** The mode *)

Lemma same_mode_refl (w : World) : same_mode w w.
Proof. reflexivity. Qed.

Lemma same_mode_trans (a b c : World) :
  same_mode a b -> same_mode b c -> same_mode a c.
Proof. unfold same_mode. congruence. Qed.

Ltac keeps_mode :=
  keeps_split same_mode_refl same_mode_trans; reflexivity.

Lemma stopVideo_same_mode : keeps same_mode stopVideo.
Proof. unfold stopVideo. keeps_mode. Qed.

Lemma initVideo_same_mode (B : Browser) : keeps same_mode (initVideo B).
Proof. unfold initVideo, bind_handler, trigger. keeps_mode. Qed.

Lemma handler_same_mode (B : Browser) (e : Inbound) :
  keeps same_mode (handler B e).
Proof.
  destruct e; cbn [handler];
    unfold on_matched, on_client_message, on_client_disconnect, on_banned,
      on_client_offer, on_client_answer, on_client_ice,
      setStatus, setMessages, setIsBanned, setBanTimeLeft, trigger;
    keeps_split same_mode_refl same_mode_trans;
    solve [ reflexivity | apply initVideo_same_mode | apply stopVideo_same_mode ].
Qed.

Lemma step_same_mode (B : Browser) (a : Action) : keeps same_mode (step B a).
Proof.
  destruct a; cbn [step];
    unfold provide_channel, channel_cleanup, channel_effects, handleNext,
      sendMessage, reportUser, captureReportFrame, banTick, timerTick,
      receive, pc_ontrack, pc_onicecandidate, setBanTimeLeft_with, ban_updater,
      setStatus, setMessages, setInput, setTime, setIsBanned, setBanTimeLeft,
      trigger, bind_handler, toast;
    keeps_split same_mode_refl same_mode_trans;
    solve [ reflexivity | apply stopVideo_same_mode | apply handler_same_mode ].
Qed.

(** A sequence of actions keeps the mode, since each action does. *)
Lemma run_same_mode (B : Browser) (l : list Action) (w : World) :
  same_mode w (run B l w).
Proof.
  apply (keeps_run same_mode same_mode_refl same_mode_trans B).
  apply step_same_mode.
Qed.

(** The view is created in text mode, and so it stays. *)
Corollary mode_stays_text (B : Browser) (l : list Action) :
  mode (state (run B l initialWorld)) = mode_text.
Proof. exact (run_same_mode B l initialWorld). Qed.

(** *** The client-report events on the channel *)

Lemma no_new_report_refl (w : World) : no_new_report w w.
Proof. intros data H. exact H. Qed.

Lemma no_new_report_trans (a b c : World) :
  no_new_report a b -> no_new_report b c -> no_new_report a c.
Proof. intros Hab Hbc data H. apply Hab, Hbc, H. Qed.

(** Closes a goal about one write: either the outbox is the same, or it
    grew by an event of another name, or the channel is a fresh one. *)
Ltac no_new_report_write :=
  let data := fresh "data" in
  let H := fresh "H" in
  intros data H; unfold outbox in *; cbn in *;
  try match goal with
      | w : World |- _ => destruct (channel w); cbn in *
      end;
  solve [ exact H
        | contradiction
        | apply in_app_or in H; destruct H as [H | [H | []]];
          [exact H | discriminate H] ].

Ltac keeps_reports :=
  keeps_split no_new_report_refl no_new_report_trans;
  try match goal with
      | |- no_new_report _ _ => no_new_report_write
      end.

Lemma stopVideo_no_new_report : keeps no_new_report stopVideo.
Proof. unfold stopVideo. keeps_reports. Qed.

Lemma initVideo_no_new_report (B : Browser) : keeps no_new_report (initVideo B).
Proof. unfold initVideo, bind_handler, trigger. keeps_reports. Qed.

Lemma handler_no_new_report (B : Browser) (e : Inbound) :
  keeps no_new_report (handler B e).
Proof.
  destruct e; cbn [handler];
    unfold on_matched, on_client_message, on_client_disconnect, on_banned,
      on_client_offer, on_client_answer, on_client_ice,
      setStatus, setMessages, setIsBanned, setBanTimeLeft, trigger;
    keeps_reports;
    solve [ apply initVideo_no_new_report | apply stopVideo_no_new_report ].
Qed.

Lemma Action_eq_dec_report (a : Action) : {a = Click_report} + {a <> Click_report}.
Proof. destruct a; first [left; reflexivity | right; discriminate]. Qed.

(** Every action but the report button adds no client-report event. *)
Lemma step_no_new_report (B : Browser) (a : Action) :
  a <> Click_report -> keeps no_new_report (step B a).
Proof.
  intros Ha. destruct a; try congruence; clear Ha; cbn [step];
    unfold provide_channel, channel_cleanup, channel_effects, handleNext,
      sendMessage, banTick, timerTick,
      receive, pc_ontrack, pc_onicecandidate, setBanTimeLeft_with, ban_updater,
      setStatus, setMessages, setInput, setTime, setIsBanned, setBanTimeLeft,
      trigger, bind_handler;
    keeps_reports;
    solve [ apply stopVideo_no_new_report | apply handler_no_new_report ].
Qed.

(** *** Text mode without video

    In a text-mode view no video element is mounted, so [initVideo] never
    gets past its first line and the connection is never created: a world
    that is [text_idle] stays so under every action. *)

Lemma stays_text_idle_refl (w : World) : stays_text_idle w w.
Proof. intros H. exact H. Qed.

Lemma stays_text_idle_trans (a b c : World) :
  stays_text_idle a b -> stays_text_idle b c -> stays_text_idle a c.
Proof. intros Hab Hbc H. apply Hbc, Hab, H. Qed.

(** A handler that changes nothing at all in a [text_idle] world. *)
Ltac idle_noop :=
  let w := fresh "w" in
  let H := fresh "H" in
  intros w H;
  destruct w as [[? ? ? ? ? ? ?] ? ? ? ? ? ?];
  destruct H as (Hm & Hl & Hr & Hp & Hs); cbn in Hm, Hl, Hr, Hp, Hs; subst;
  repeat split.

Ltac keeps_idle :=
  keeps_split stays_text_idle_refl stays_text_idle_trans;
  try match goal with
      | |- stays_text_idle _ _ =>
          let H := fresh "H" in intros H; exact H
      end.

Lemma stopVideo_text_idle : keeps stays_text_idle stopVideo.
Proof. idle_noop. Qed.

Lemma initVideo_text_idle (B : Browser) : keeps stays_text_idle (initVideo B).
Proof. idle_noop. Qed.

Lemma pc_ontrack_text_idle (s : nat) : keeps stays_text_idle (pc_ontrack s).
Proof. idle_noop. Qed.

Lemma on_client_offer_text_idle (B : Browser) (o : SessionDescription) :
  keeps stays_text_idle (on_client_offer B o).
Proof. idle_noop. Qed.

Lemma on_client_answer_text_idle (a : SessionDescription) :
  keeps stays_text_idle (on_client_answer a).
Proof. idle_noop. Qed.

Lemma on_client_ice_text_idle (c : IceCandidate) :
  keeps stays_text_idle (on_client_ice c).
Proof. idle_noop. Qed.

Lemma handler_text_idle (B : Browser) (e : Inbound) :
  keeps stays_text_idle (handler B e).
Proof.
  destruct e; cbn [handler];
    try solve [ apply on_client_offer_text_idle
              | apply on_client_answer_text_idle
              | apply on_client_ice_text_idle ];
    unfold on_matched, on_client_message, on_client_disconnect, on_banned,
      setStatus, setMessages, setIsBanned, setBanTimeLeft;
    keeps_idle;
    solve [ apply initVideo_text_idle | apply stopVideo_text_idle ].
Qed.

Lemma step_text_idle (B : Browser) (a : Action) :
  keeps stays_text_idle (step B a).
Proof.
  destruct a; cbn [step];
    try solve [ apply pc_ontrack_text_idle ];
    unfold provide_channel, channel_cleanup, channel_effects, handleNext,
      sendMessage, reportUser, captureReportFrame, banTick, timerTick,
      receive, pc_onicecandidate, setBanTimeLeft_with, ban_updater,
      setStatus, setMessages, setInput, setTime, setIsBanned, setBanTimeLeft,
      trigger, bind_handler, toast;
    keeps_idle;
    solve [ apply stopVideo_text_idle | apply handler_text_idle ].
Qed.

(** From its creation on, the view has no connection, no stream and no
    video element: the video path of the component is never entered. *)
Lemma run_text_idle (B : Browser) (l : list Action) :
  text_idle (run B l initialWorld).
Proof.
  apply (keeps_run stays_text_idle stays_text_idle_refl stays_text_idle_trans
           B (step_text_idle B) l initialWorld).
  repeat split.
Qed.

(** ** The "next" button *)

(** C1: pressing "next" empties the message list and puts the status text
    back to "Looking for someone...", whatever the session state was. *)
Theorem handleNext_clears_messages_and_status (w : World) :
  messages (state (exec handleNext w)) = [] /\
  status (state (exec handleNext w)) = "Looking for someone...".
Proof. rewrite handleNext_world. split; reflexivity. Qed.

(** C10: pressing "next" leaves the ban flag and the remaining seconds as
    they were; of the hooks only the messages, the status and the session
    timer change, so the mode and the input keep their values too, and no
    notice is queued. *)
Theorem handleNext_keeps_ban_state (w : World) :
  isBanned (state (exec handleNext w)) = isBanned (state w) /\
  banTimeLeft (state (exec handleNext w)) = banTimeLeft (state w) /\
  mode (state (exec handleNext w)) = mode (state w) /\
  input (state (exec handleNext w)) = input (state w) /\
  toasts (exec handleNext w) = toasts w.
Proof. rewrite handleNext_world. repeat split. Qed.

(** ** Stopping the video *)



(** ** Text messages *)

(** C3: with an empty input field [sendMessage] changes nothing at all:
    the channel (hence the events triggered on it), the message list and
    the input field stay as they were. *)
Theorem sendMessage_empty_is_noop (w : World) :
  input (state w) = "" -> exec sendMessage w = w.
Proof.
  intros Hin. world_cases w; cbn in Hin; subst; reflexivity.
Qed.

Lemma sendMessage_empty_is_noop_witness :
  exec sendMessage with_channel = with_channel.
Proof.
  apply (sendMessage_empty_is_noop with_channel). reflexivity.
Defined.

(** C9, as stated, fails: with no channel the message is appended and the
    input reset, yet no client-message event is emitted. *)
Lemma sendMessage_without_channel_emits_nothing :
  input (state typed_before_channel) = "hi" /\
  messages (state (exec sendMessage typed_before_channel))
    = [{| from := "you"; text := "hi" |}] /\
  input (state (exec sendMessage typed_before_channel)) = "" /\
  channel (exec sendMessage typed_before_channel) = None /\
  outbox (exec sendMessage typed_before_channel) = [].
Proof. repeat split. Qed.

(** C9, amended: sending a non-empty input appends exactly one message
    [{from: "you", text: input}] at the end of the list and resets the
    input to the empty string; when a channel is present exactly one event,
    client-message carrying that text, is added to it, and when there is
    no channel nothing is emitted. *)
Theorem sendMessage_nonempty (w : World) :
  input (state w) <> "" ->
  messages (state (exec sendMessage w))
    = (messages (state w) ++ [{| from := "you"; text := input (state w) |}])%list /\
  input (state (exec sendMessage w)) = "" /\
  (forall c, channel w = Some c ->
     outbox (exec sendMessage w)
       = (triggered c ++ [("client-message", Js.str (input (state w)))])%list /\
     option_map bound (channel (exec sendMessage w)) = Some (bound c)) /\
  (channel w = None -> channel (exec sendMessage w) = None).
Proof.
  intros Hin. rewrite (sendMessage_world w Hin). unfold outbox. cbn.
  split; [reflexivity | split; [reflexivity | split]].
  - intros c Hc. rewrite Hc. split; reflexivity.
  - intros Hc. rewrite Hc. reflexivity.
Qed.

Lemma sendMessage_nonempty_witness :
  outbox (exec sendMessage typed_with_channel)
    = [("client-message", Js.str "hi")] /\
  messages (state (exec sendMessage typed_with_channel))
    = [{| from := "you"; text := "hi" |}] /\
  input (state (exec sendMessage typed_with_channel)) = "".
Proof.
  destruct (sendMessage_nonempty typed_with_channel) as (Hm & Hi & Hc & _).
  - cbn. discriminate.
  - split; [ | split; [exact Hm | exact Hi]].
    destruct (Hc {| triggered := [];
                    bound := ["banned"; "matched"; "client-message";
                              "client-disconnect"] |} eq_refl) as [Ho _].
    exact Ho.
Defined.

(** ** The ban *)






(** With the ban active and nothing left, as after a ban of zero seconds,
    a tick ends the ban and leaves the remaining seconds at 0. *)
Lemma banTick_at_zero_clears :
  isBanned (state banned_for_zero) = true /\
  banTimeLeft (state banned_for_zero) = 0 /\
  isBanned (state (exec banTick banned_for_zero)) = false /\
  banTimeLeft (state (exec banTick banned_for_zero)) = 0 /\
  status (state (exec banTick banned_for_zero)) = "Looking for someone...".
Proof. repeat split. Qed.

(** C2: while the ban is active, with the remaining seconds a whole number
    up to [Js.MAX_SAFE_INTEGER], a tick of the interval takes exactly one
    off the remaining seconds when at least one remains (and leaves 0 when
    none does); when the remaining seconds reach zero the ban is cleared:
    flag false, remaining seconds 0, status "Looking for someone..."; and
    until then the ban stays active and the status shows the new remaining
    time. *)
Theorem banTick_countdown (w : World) :
  isBanned (state w) = true ->
  banTimeLeft (state w) <= Js.MAX_SAFE_INTEGER ->
  (1 <= banTimeLeft (state w) ->
     banTimeLeft (state (exec banTick w)) = banTimeLeft (state w) - 1) /\
  (banTimeLeft (state w) <= 1 ->
     banTimeLeft (state (exec banTick w)) = 0) /\
  (banTimeLeft (state (exec banTick w)) = 0 ->
     isBanned (state (exec banTick w)) = false /\
     status (state (exec banTick w)) = "Looking for someone...") /\
  (banTimeLeft (state (exec banTick w)) <> 0 ->
     isBanned (state (exec banTick w)) = true /\
     status (state (exec banTick w))
       = "You are banned ("
         ++ formatTime (banTimeLeft (state (exec banTick w))) ++ ")").
Proof.
  intros Hb _. rewrite (banTick_world w Hb).
  cbn -[Z.leb Z.sub banned_status].
  destruct (Z.leb_spec (banTimeLeft (state w)) 1) as [Hle | Hgt].
  - repeat split; intros; solve [reflexivity | lia].
  - repeat split; intros; solve [reflexivity | lia].
Qed.

Lemma banTick_countdown_witness :
  banTimeLeft (state (exec banTick banned_for_ninety)) = 89 /\
  isBanned (state (exec banTick banned_for_ninety)) = true /\
  status (state (exec banTick banned_for_ninety)) = "You are banned (01:29)" /\
  banTimeLeft (state (exec banTick banned_for_one)) = 0 /\
  isBanned (state (exec banTick banned_for_one)) = false /\
  status (state (exec banTick banned_for_one)) = "Looking for someone...".
Proof.
  destruct (banTick_countdown banned_for_ninety eq_refl)
    as (Hdec & _ & _ & Hrun); [unfold Js.MAX_SAFE_INTEGER; cbn; lia | ].
  destruct (banTick_countdown banned_for_one eq_refl)
    as (Hone & _ & Hend & _); [unfold Js.MAX_SAFE_INTEGER; cbn; lia | ].
  assert (H89 : banTimeLeft (state (exec banTick banned_for_ninety)) = 89)
    by (apply Hdec; cbn; lia).
  assert (H0 : banTimeLeft (state (exec banTick banned_for_one)) = 0)
    by (apply Hone; cbn; lia).
  destruct Hrun as [Hflag Hstatus]; [rewrite H89; discriminate | ].
  destruct (Hend H0) as [Hoff Hlook].
  split; [exact H89 | ].
  split; [exact Hflag | ].
  split; [exact Hstatus | ].
  split; [exact H0 | ].
  split; [exact Hoff | exact Hlook].
Defined.

(** ** The report button *)

(** The report action by frame and channel: without a frame (no remote
    video element, no 2D context, or an empty data URL) the notice "No
    video to capture" and an untouched channel; with a frame the notice
    "User reported" and one client-report event on the channel, if there is
    a channel. *)
Lemma reportUser_by_frame_and_channel (B : Browser) (w : World) :
  ((remoteVideoRef w = None \/
    exists v, remoteVideoRef w = Some v /\
      (getContext_2d B (canvas_for v) = false \/
       toDataURL_jpeg B (drawImage v (canvas_for v)) = "")) ->
   toasts (exec (reportUser B) w)
     = (toasts w ++ [{| title := "No video to capture";
                        toast_status := "error"; duration := 2000 |}])%list /\
   channel (exec (reportUser B) w) = channel w) /\
  (forall v, remoteVideoRef w = Some v ->
     getContext_2d B (canvas_for v) = true ->
     toDataURL_jpeg B (drawImage v (canvas_for v)) <> "" ->
     toasts (exec (reportUser B) w)
       = (toasts w ++ [{| title := "User reported";
                          toast_status := "success"; duration := 2000 |}])%list /\
     (forall c, channel w = Some c ->
        outbox (exec (reportUser B) w)
          = (triggered c
             ++ [("client-report",
                  report_payload (toDataURL_jpeg B (drawImage v (canvas_for v)))
                                 (Date_now B))])%list) /\
     (channel w = None -> channel (exec (reportUser B) w) = None)).
Proof.
  split.
  - intros Hno.
    rewrite reportUser_no_frame; [split; reflexivity | ].
    rewrite captureReportFrame_result.
    destruct Hno as [-> | (v & -> & [-> | Hurl])]; [left; reflexivity .. | ].
    destruct (getContext_2d B (canvas_for v)); [right | left; reflexivity].
    rewrite Hurl. reflexivity.
  - intros v Hv Hctx Hurl.
    rewrite (reportUser_frame B w (toDataURL_jpeg B (drawImage v (canvas_for v)))).
    + unfold outbox. cbn. split; [reflexivity | split].
      * intros c Hc. rewrite Hc. reflexivity.
      * intros Hc. rewrite Hc. reflexivity.
    + rewrite captureReportFrame_result, Hv, Hctx. reflexivity.
    + exact Hurl.
Qed.

(** C5: a client-report event found on the channel after an action was
    either there before, or was added by the report button with the
    payload [{screenshot, reason, timestamp}]: the non-empty data URL the
    canvas encoded from the remote video's frame, the string
    "Inappropriate behavior", and the clock's reading. *)
Theorem client_report_payload (B : Browser) (a : Action) (w : World)
    (data : Js.value) :
  In ("client-report", data) (outbox (exec (step B a) w)) ->
  In ("client-report", data) (outbox w) \/
  exists v,
    a = Click_report /\
    remoteVideoRef w = Some v /\
    toDataURL_jpeg B (drawImage v (canvas_for v)) <> "" /\
    data = Js.obj
             [("screenshot", Js.str (toDataURL_jpeg B (drawImage v (canvas_for v))));
              ("reason", Js.str "Inappropriate behavior");
              ("timestamp", Js.num (Date_now B))].
Proof.
  intros Hin.
  destruct (Action_eq_dec_report a) as [-> | Hne].
  2: { left. exact (step_no_new_report B a Hne w data Hin). }
  cbn [step] in Hin.
  pose proof (captureReportFrame_result B w) as Hcap.
  destruct (remoteVideoRef w) as [v |] eqn:Hv.
  2: { left. rewrite reportUser_no_frame in Hin by (left; exact Hcap).
       exact Hin. }
  destruct (getContext_2d B (canvas_for v)) eqn:Hctx.
  2: { left. rewrite reportUser_no_frame in Hin by (left; exact Hcap).
       exact Hin. }
  destruct (string_dec (toDataURL_jpeg B (drawImage v (canvas_for v))) "")
    as [Hempty | Hurl].
  { left. rewrite reportUser_no_frame in Hin
      by (right; rewrite Hcap, Hempty; reflexivity).
    exact Hin. }
  rewrite (reportUser_frame B w _ Hcap Hurl) in Hin.
  unfold outbox in *. cbn in Hin.
  destruct (channel w) as [c |]; cbn in Hin; [ | contradiction].
  apply in_app_or in Hin. destruct Hin as [Hold | [Hnew | []]].
  - left. exact Hold.
  - right. exists v. repeat split; try assumption.
    injection Hnew as <-. reflexivity.
Qed.

Lemma client_report_payload_witness :
  In ("client-report",
      Js.obj [("screenshot", Js.str "data:image/jpeg;base64,/9j/4AAQ");
              ("reason", Js.str "Inappropriate behavior");
              ("timestamp", Js.num 1700000000000)])
     (outbox watching) \/
  exists v,
    Click_report = Click_report /\
    remoteVideoRef watching = Some v /\
    toDataURL_jpeg sample_browser (drawImage v (canvas_for v)) <> "" /\
    Js.obj [("screenshot", Js.str "data:image/jpeg;base64,/9j/4AAQ");
            ("reason", Js.str "Inappropriate behavior");
            ("timestamp", Js.num 1700000000000)]
    = Js.obj
        [("screenshot",
          Js.str (toDataURL_jpeg sample_browser (drawImage v (canvas_for v))));
         ("reason", Js.str "Inappropriate behavior");
         ("timestamp", Js.num (Date_now sample_browser))].
Proof.
  apply (client_report_payload sample_browser Click_report watching).
  cbn. left. reflexivity.
Defined.

(** ** The mode *)

(** C8: no action on a mounted chat view changes the mode: after any
    sequence of user actions, timer firings, channel events, connection
    callbacks and effect runs the mode is the one the view started with. *)
Theorem mode_is_fixed (B : Browser) (l : list Action) (w : World) :
  mode (state (run B l w)) = mode (state w).
Proof. exact (run_same_mode B l w). Qed.

(** * Further properties of the code *)

(** ** [formatTime] beyond mm:ss *)

Lemma formatTime_mmss_witness : formatTime 754 = mmss 754.
Proof. apply (formatTime_mmss 754). lia. Defined.

Lemma seconds_two_digits_checked :
  forallb (fun n =>
             String.eqb (Js.padStart 2 "0" (Js.toString (Z.of_nat n)))
               (String (digit (Z.of_nat n / 10))
                  (String (digit (Z.of_nat n mod 10)) "")))
    (seq 0 60) = true.
Proof. vm_compute. reflexivity. Qed.

Lemma seconds_two_digits (r : Z) :
  0 <= r < 60 ->
  Js.padStart 2 "0" (Js.toString r)
  = String (digit (r / 10)) (String (digit (r mod 10)) "").
Proof.
  intros Hr.
  pose proof seconds_two_digits_checked as Hall.
  rewrite forallb_forall in Hall.
  specialize (Hall (Z.to_nat r)). cbv beta in Hall.
  rewrite Z2Nat.id in Hall by lia.
  apply String.eqb_eq, Hall, in_seq. lia.
Qed.

Lemma padStart_2_length (s : string) :
  (2 <= String.length (Js.padStart 2 "0" s))%nat.
Proof.
  destruct s as [| a [| b s]]; cbn; lia.
Qed.

(** X2: for every duration of whole seconds from 0 up to
    [Js.MAX_SAFE_INTEGER], also beyond one hundred minutes, the seconds
    field of [formatTime] is exactly the two digits of the duration modulo
    60, and the minutes field before the colon is the decimal of the whole
    minutes padded to at least two characters. *)
Theorem formatTime_nonnegative (d : Z) :
  0 <= d <= Js.MAX_SAFE_INTEGER ->
  formatTime d
  = Js.padStart 2 "0" (Js.toString (d / 60)) ++ ":"
    ++ String (digit (d mod 60 / 10)) (String (digit (d mod 60 mod 10)) "") /\
  (2 <= String.length (Js.padStart 2 "0" (Js.toString (d / 60))))%nat.
Proof.
  intros Hd. split; [ | apply padStart_2_length].
  unfold formatTime, Js.floor_div, Js.rem.
  rewrite Z.rem_mod_nonneg by lia.
  rewrite (seconds_two_digits (d mod 60)) by (apply Z.mod_pos_bound; lia).
  reflexivity.
Qed.

Lemma formatTime_nonnegative_witness :
  formatTime 7325 = "122:05".
Proof.
  destruct (formatTime_nonnegative 7325) as [H _];
    [unfold Js.MAX_SAFE_INTEGER; lia | ].
  exact H.
Defined.

Lemma string_of_uint_nonempty (u : Decimal.uint) :
  exists c r, NilZero.string_of_uint u = String c r.
Proof. destruct u; cbn; eauto. Qed.

(** X3: a negative duration is not shown as a time: the text [formatTime]
    gives for it begins with a minus sign. *)
Theorem formatTime_negative (d : Z) :
  d < 0 -> exists rest, formatTime d = String "-" rest.
Proof.
  intros Hd. unfold formatTime, Js.floor_div, Js.toString.
  assert (Hq : d / 60 < 0) by (apply Z.div_lt_upper_bound; lia).
  destruct (d / 60) as [| q | q] eqn:Eq; try lia.
  cbn [Z.to_int NilZero.string_of_int].
  destruct (string_of_uint_nonempty (Pos.to_uint q)) as (c & r & ->).
  cbn. eauto.
Qed.

Lemma formatTime_negative_witness :
  exists rest, formatTime (-5) = String "-" rest.
Proof. apply (formatTime_negative (-5)). lia. Defined.

(** ** The ban from start to end *)

Lemma times_add (n k : nat) (m : M unit) (w : World) :
  exec (times (n + k) m) w = exec (times k m) (exec (times n m) w).
Proof.
  revert w. induction n as [| n IH]; intros w.
  - reflexivity.
  - change (exec (times (S n + k) m) w)
      with (exec (times (n + k) m) (exec m w)).
    rewrite IH. reflexivity.
Qed.

Lemma banTick_inactive_times (k : nat) (w : World) :
  isBanned (state w) = false -> exec (times k banTick) w = w.
Proof.
  intros Hb. induction k as [| k IH].
  - reflexivity.
  - rewrite times_succ_last, IH. apply banTick_inactive, Hb.
Qed.

(** The status during the countdown, from the second tick's point of view:
    after at least one tick it shows the remaining time. *)
Lemma ban_countdown_status (k : nat) (w : World) :
  isBanned (state w) = true ->
  Z.of_nat (S k) < banTimeLeft (state w) ->
  status (state (exec (times (S k) banTick) w))
    = banned_status (banTimeLeft (state w) - Z.of_nat (S k)).
Proof.
  intros Hb Hk. rewrite times_succ_last.
  destruct (ban_countdown_runs k w Hb) as [Hb' Ht']; [lia | ].
  rewrite (banTick_world _ Hb'). cbn -[Z.leb Z.sub banned_status Z.of_nat].
  rewrite Ht'.
  destruct (Z.leb_spec (banTimeLeft (state w) - Z.of_nat k) 1); [lia | ].
  f_equal. lia.
Qed.

(** X4: a ban of [d] whole seconds, from 1 up to [Js.MAX_SAFE_INTEGER],
    lasts exactly [d] ticks of the interval: after [k < d] ticks the ban is
    still active, [d - k] seconds remain and the status shows them; after
    [d] or more ticks the ban is over, no seconds remain and the status is
    "Looking for someone...". *)
Theorem ban_lasts_exactly (d : Z) (w : World) :
  1 <= d <= Js.MAX_SAFE_INTEGER ->
  (forall k, Z.of_nat k < d ->
     isBanned (state (exec (times k banTick) (exec (on_banned d) w))) = true /\
     banTimeLeft (state (exec (times k banTick) (exec (on_banned d) w)))
       = d - Z.of_nat k /\
     status (state (exec (times k banTick) (exec (on_banned d) w)))
       = "You are banned (" ++ formatTime (d - Z.of_nat k) ++ ")") /\
  (forall k, d <= Z.of_nat k ->
     isBanned (state (exec (times k banTick) (exec (on_banned d) w))) = false /\
     banTimeLeft (state (exec (times k banTick) (exec (on_banned d) w))) = 0 /\
     status (state (exec (times k banTick) (exec (on_banned d) w)))
       = "Looking for someone...").
Proof.
  intros [Hd _].
  assert (Hb : isBanned (state (exec (on_banned d) w)) = true) by reflexivity.
  assert (Ht : banTimeLeft (state (exec (on_banned d) w)) = d) by reflexivity.
  split.
  - intros k Hk.
    destruct (ban_countdown_runs k _ Hb) as [Hb' Ht']; [rewrite Ht; exact Hk | ].
    rewrite Ht in Ht'.
    split; [exact Hb' | split; [exact Ht' | ]].
    destruct k as [| k].
    + cbn [times exec ret snd]. rewrite Z.sub_0_r. reflexivity.
    + rewrite ban_countdown_status by (rewrite ?Ht; assumption).
      rewrite Ht. reflexivity.
  - intros k Hk.
    replace k with (Z.to_nat d + (k - Z.to_nat d))%nat by lia.
    rewrite times_add.
    destruct (ban_expires _ Hb) as (Hoff & Hzero & Hlook); [rewrite Ht; exact Hd | ].
    rewrite Ht in Hoff, Hzero, Hlook.
    rewrite (banTick_inactive_times _ _ Hoff).
    split; [exact Hoff | split; [exact Hzero | exact Hlook]].
Qed.

Lemma ban_lasts_exactly_witness :
  isBanned (state (exec (times 2 banTick) (exec (on_banned 3) initialWorld))) = true /\
  status (state (exec (times 2 banTick) (exec (on_banned 3) initialWorld)))
    = "You are banned (00:01)" /\
  isBanned (state (exec (times 3 banTick) (exec (on_banned 3) initialWorld))) = false /\
  status (state (exec (times 5 banTick) (exec (on_banned 3) initialWorld)))
    = "Looking for someone...".
Proof.
  destruct (ban_lasts_exactly 3 initialWorld) as [Hrun Hend];
    [unfold Js.MAX_SAFE_INTEGER; lia | ].
  destruct (Hrun 2%nat) as (Hb & _ & Hs); [cbn; lia | ].
  destruct (Hend 3%nat) as (Hoff & _ & _); [cbn; lia | ].
  destruct (Hend 5%nat) as (_ & _ & Hlook); [cbn; lia | ].
  split; [exact Hb | split; [exact Hs | split; [exact Hoff | exact Hlook]]].
Defined.



Lemma on_banned_after_tick (d : Z) (w : World) :
  exec (on_banned d) (exec banTick w) = exec (on_banned d) w.
Proof.
  destruct (isBanned (state w)) eqn:Hb.
  - rewrite (banTick_world w Hb).
    destruct w as [[? ? ? ? ? ? ?] ? ? ? ? ? ?]. reflexivity.
  - rewrite (banTick_inactive w Hb). reflexivity.
Qed.

(** X6: a banned event replaces whatever ban there was: received at any
    point of an earlier countdown, or after its end, it leaves the world
    exactly as if the earlier ban and its ticks had never happened. *)
Theorem later_ban_starts_over (d1 d2 : Z) (k : nat) (w : World) :
  exec (on_banned d2) (exec (times k banTick) (exec (on_banned d1) w))
  = exec (on_banned d2) w.
Proof.
  induction k as [| k IH].
  - destruct w as [[? ? ? ? ? ? ?] ? ? ? ? ? ?]. reflexivity.
  - rewrite times_succ_last, on_banned_after_tick. exact IH.
Qed.

(** ** The session timer *)

Lemma timerTick_connected (w : World) :
  status (state w) = connected ->
  exec timerTick w = with_time (time (state w) + 1) w.
Proof.
  intros Hs. unfold exec, timerTick, bind, read. cbn [fst snd].
  rewrite Hs. destruct w as [[? ? ? ? ? ? ?] ? ? ? ? ? ?]. reflexivity.
Qed.

Lemma timerTick_not_connected (w : World) :
  status (state w) <> connected -> exec timerTick w = w.
Proof.
  intros Hs. unfold exec, timerTick, bind, read. cbn [fst snd].
  apply String.eqb_neq in Hs. rewrite Hs. reflexivity.
Qed.

(** X7: while the status is "Connected to stranger", [k] firings of the
    session timer add exactly [k] to the elapsed time and change nothing
    else. *)
Theorem timer_counts_while_connected (k : nat) (w : World) :
  status (state w) = "Connected to stranger" ->
  exec (times k timerTick) w = with_time (time (state w) + Z.of_nat k) w.
Proof.
  intros Hs. induction k as [| k IH].
  - destruct w as [[? ? ? ? ? ? ?] ? ? ? ? ? ?]. cbn.
    rewrite Z.add_0_r. reflexivity.
  - rewrite times_succ_last, IH, timerTick_connected by exact Hs.
    replace (time (state w) + Z.of_nat (S k))
      with (time (state w) + Z.of_nat k + 1) by lia.
    destruct w as [[? ? ? ? ? ? ?] ? ? ? ? ? ?]. reflexivity.
Qed.

Lemma timer_counts_while_connected_witness :
  time (state (exec (times 3 timerTick)
                 (exec (on_matched sample_browser) with_channel))) = 3.
Proof.
  rewrite (timer_counts_while_connected 3
             (exec (on_matched sample_browser) with_channel)).
  - reflexivity.
  - reflexivity.
Defined.

(** X8: under any other status (looking, disconnected, banned) the session
    timer does not run: its firings change nothing. *)
Theorem timer_stopped_unless_connected (k : nat) (w : World) :
  status (state w) <> "Connected to stranger" ->
  exec (times k timerTick) w = w.
Proof.
  intros Hs. induction k as [| k IH].
  - reflexivity.
  - rewrite times_succ_last, IH. apply timerTick_not_connected, Hs.
Qed.

Lemma timer_stopped_unless_connected_witness :
  exec (times 4 timerTick)
    (exec on_client_disconnect (exec (on_matched sample_browser) with_channel))
  = exec on_client_disconnect (exec (on_matched sample_browser) with_channel).
Proof.
  apply (timer_stopped_unless_connected 4).
  cbn. discriminate.
Defined.

(** *** Who changes the session time *)

Lemma same_time_refl (w : World) : same_time w w.
Proof. reflexivity. Qed.

Lemma same_time_trans (a b c : World) :
  same_time a b -> same_time b c -> same_time a c.
Proof. unfold same_time. congruence. Qed.

Ltac keeps_time :=
  keeps_split same_time_refl same_time_trans; try reflexivity.

Lemma stopVideo_same_time : keeps same_time stopVideo.
Proof. unfold stopVideo. keeps_time. Qed.

Lemma initVideo_same_time (B : Browser) : keeps same_time (initVideo B).
Proof. unfold initVideo, bind_handler, trigger. keeps_time. Qed.

Lemma handler_same_time (B : Browser) (e : Inbound) :
  keeps same_time (handler B e).
Proof.
  destruct e; cbn [handler];
    unfold on_matched, on_client_message, on_client_disconnect, on_banned,
      on_client_offer, on_client_answer, on_client_ice,
      setStatus, setMessages, setIsBanned, setBanTimeLeft, trigger;
    keeps_time;
    solve [ apply initVideo_same_time | apply stopVideo_same_time ].
Qed.

(** X9: only the timer's own firing and the "next" button change the
    elapsed time; no other action does: a match does not reset it, nor does
    a disconnect, a ban or a message. *)
Theorem only_timer_and_next_change_time (B : Browser) (a : Action) (w : World) :
  a <> Interval_timer -> a <> Click_next ->
  time (state (exec (step B a) w)) = time (state w).
Proof.
  intros Ht Hn. revert w. change (keeps same_time (step B a)).
  destruct a; try congruence; clear Ht Hn; cbn [step];
    unfold provide_channel, channel_cleanup, channel_effects,
      sendMessage, reportUser, captureReportFrame, banTick,
      receive, pc_ontrack, pc_onicecandidate, setBanTimeLeft_with, ban_updater,
      setStatus, setMessages, setInput, setIsBanned, setBanTimeLeft,
      trigger, bind_handler, toast;
    keeps_time;
    solve [ apply stopVideo_same_time | apply handler_same_time ].
Qed.

Lemma only_timer_and_next_change_time_witness :
  time (state (exec (step sample_browser (Receive In_matched))
                 (exec (times 3 timerTick)
                    (exec (on_matched sample_browser) with_channel)))) = 3.
Proof.
  rewrite (only_timer_and_next_change_time sample_browser (Receive In_matched)).
  - reflexivity.
  - discriminate.
  - discriminate.
Defined.

(** ** The message list *)

Lemma messages_extended_refl (w : World) : messages_extended w w.
Proof. exists []. symmetry. apply app_nil_r. Qed.

Lemma messages_extended_trans (a b c : World) :
  messages_extended a b -> messages_extended b c -> messages_extended a c.
Proof.
  intros [l1 H1] [l2 H2]. exists (l1 ++ l2)%list.
  rewrite H2, H1. symmetry. apply app_assoc.
Qed.

Ltac keeps_messages :=
  keeps_split messages_extended_refl messages_extended_trans;
  try match goal with
      | |- messages_extended _ _ =>
          solve [ exists []; cbn; symmetry; apply app_nil_r
                | eexists; cbn; reflexivity ]
      end.

Lemma stopVideo_messages_extended : keeps messages_extended stopVideo.
Proof. unfold stopVideo. keeps_messages. Qed.

Lemma initVideo_messages_extended (B : Browser) :
  keeps messages_extended (initVideo B).
Proof. unfold initVideo, bind_handler, trigger. keeps_messages. Qed.

Lemma handler_messages_extended (B : Browser) (e : Inbound) :
  keeps messages_extended (handler B e).
Proof.
  destruct e; cbn [handler];
    unfold on_matched, on_client_message, on_client_disconnect, on_banned,
      on_client_offer, on_client_answer, on_client_ice,
      setStatus, setMessages, setIsBanned, setBanTimeLeft, trigger;
    keeps_messages;
    solve [ apply initVideo_messages_extended
          | apply stopVideo_messages_extended ].
Qed.

Lemma step_messages_extended (B : Browser) (a : Action) :
  a <> Click_next -> keeps messages_extended (step B a).
Proof.
  intros Hn. destruct a; try congruence; clear Hn; cbn [step];
    unfold provide_channel, channel_cleanup, channel_effects,
      sendMessage, reportUser, captureReportFrame, banTick, timerTick,
      receive, pc_ontrack, pc_onicecandidate, setBanTimeLeft_with, ban_updater,
      setStatus, setMessages, setInput, setTime, setIsBanned, setBanTimeLeft,
      trigger, bind_handler, toast;
    keeps_messages;
    solve [ apply stopVideo_messages_extended
          | apply handler_messages_extended ].
Qed.

(** X10: the message list is append-only except for "next": along any
    sequence of actions without a press of "next", the messages that were
    there stay, in place and in order, and new ones come after them. *)
Theorem messages_append_only (B : Browser) (l : list Action) (w : World) :
  Forall (fun a => a <> Click_next) l ->
  exists more,
    messages (state (run B l w)) = (messages (state w) ++ more)%list.
Proof.
  intros Hl. revert w.
  induction Hl as [| a l Ha _ IH]; intros w; cbn [run fold_left].
  - apply messages_extended_refl.
  - apply (messages_extended_trans w (exec (step B a) w)).
    + apply (step_messages_extended B a Ha w).
    + apply IH.
Qed.

Lemma messages_append_only_witness :
  exists more,
    messages (state (run sample_browser
                       [Receive (In_client_message "hello"); Click_report;
                        Interval_timer; Click_send]
                       typed_with_channel))
    = (messages (state typed_with_channel) ++ more)%list.
Proof.
  apply (messages_append_only sample_browser).
  repeat constructor; discriminate.
Defined.

Lemma receive_client_message (B : Browser) (msg : string) (w : World) (c : Channel) :
  channel w = Some c ->
  count_occ string_dec (bound c) "client-message" = 1%nat ->
  exec (receive B (In_client_message msg)) w
  = with_state (fun s =>
      {| mode := mode s;
         messages := (messages s ++ [from_stranger msg])%list;
         status := status s; input := input s; time := time s;
         isBanned := isBanned s; banTimeLeft := banTimeLeft s |}) w.
Proof.
  intros Hc Hn. rewrite (receive_once B (In_client_message msg) w c Hc Hn).
  destruct w as [[? ? ? ? ? ? ?] ? ? ? ? ? ?]. reflexivity.
Qed.

(** X11: with the client-message handler bound once, a run of incoming
    messages, empty ones included, is appended to the list one entry per
    message in the order of arrival, each with sender "stranger"; nothing
    is emitted in return. *)
Theorem incoming_messages_in_order (B : Browser) (msgs : list string)
    (w : World) (c : Channel) :
  channel w = Some c ->
  count_occ string_dec (bound c) "client-message" = 1%nat ->
  messages (state (run B (map (fun m => Receive (In_client_message m)) msgs) w))
    = (messages (state w) ++ map from_stranger msgs)%list /\
  channel (run B (map (fun m => Receive (In_client_message m)) msgs) w)
    = Some c.
Proof.
  revert w. induction msgs as [| m msgs IH]; intros w Hc Hn; cbn [map run fold_left].
  - split; [symmetry; apply app_nil_r | exact Hc].
  - cbn [step]. rewrite (receive_client_message B m w c Hc Hn).
    match goal with
    | |- context [fold_left _ _ ?w1] =>
        destruct (IH w1) as [Hm Hch]; [exact Hc | exact Hn | ]
    end.
    unfold run in Hm, Hch. rewrite Hm, Hch. cbn.
    rewrite <- app_assoc. split; reflexivity.
Qed.

Lemma incoming_messages_in_order_witness :
  messages (state (run sample_browser
                     [Receive (In_client_message "hi");
                      Receive (In_client_message "");
                      Receive (In_client_message "there")]
                     with_channel))
  = [from_stranger "hi"; from_stranger ""; from_stranger "there"].
Proof.
  destruct (incoming_messages_in_order sample_browser ["hi"; ""; "there"]
              with_channel
              {| triggered := [];
                 bound := ["banned"; "matched"; "client-message";
                           "client-disconnect"] |} eq_refl eq_refl)
    as [Hm _].
  exact Hm.
Defined.

(** X12: sending is idempotent: whatever the input, a second call of
    [sendMessage] right after the first does nothing, since the first
    leaves the input empty; a repeated Enter or click sends once. *)
Theorem sendMessage_twice (w : World) :
  exec sendMessage (exec sendMessage w) = exec sendMessage w.
Proof.
  apply sendMessage_empty_noop_helper.
  destruct (string_dec (input (state w)) "") as [He | Hne].
  - rewrite (sendMessage_empty_noop_helper w He). exact He.
  - rewrite (sendMessage_world w Hne). reflexivity.
Qed.

(** ** Stopping twice *)

Lemma stop_tracks_idempotent (s : MediaStream) :
  stop_tracks (stop_tracks s) = stop_tracks s.
Proof.
  destruct s as [i ts]. unfold stop_tracks. cbn. f_equal.
  rewrite map_map. apply map_ext. intros [? ?]. reflexivity.
Qed.

(** X13: [stopVideo] is idempotent: a second call finds the tracks ended
    and the connection closed and changes nothing, so the cleanup after a
    disconnect is harmless. *)
Theorem stopVideo_twice (w : World) :
  exec stopVideo (exec stopVideo w) = exec stopVideo w.
Proof.
  rewrite !stopVideo_world.
  destruct w as [s c lv rv [p |] [ls |] ts]; cbn;
    rewrite ?stop_tracks_idempotent; reflexivity.
Qed.

(** ** Starting the video *)

Lemma fold_addTrack (ts : list MediaStreamTrack) (p : RTCPeerConnection) :
  fold_left addTrack ts p
  = {| pc_closed := pc_closed p;
       pc_senders := (pc_senders p ++ map track_id ts)%list;
       pc_localDescription := pc_localDescription p;
       pc_remoteDescription := pc_remoteDescription p;
       pc_remoteCandidates := pc_remoteCandidates p |}.
Proof.
  revert p. induction ts as [| t ts IH]; intros p; cbn [fold_left map].
  - rewrite app_nil_r. destruct p; reflexivity.
  - rewrite IH. cbn. rewrite <- app_assoc. reflexivity.
Qed.

(** X14: [initVideo] does nothing at all unless both video elements are
    mounted and the browser grants the media: no stream, no connection, no
    handler bound, no offer sent. *)
Theorem initVideo_needs_elements_and_media (B : Browser) (w : World) :
  remoteVideoRef w = None \/ localVideoRef w = None \/ getUserMedia B = None ->
  exec (initVideo B) w = w.
Proof.
  intros H. unfold exec, initVideo, bind, read. cbn [fst snd].
  destruct H as [-> | [-> | ->]].
  - reflexivity.
  - destruct (remoteVideoRef w); reflexivity.
  - destruct (remoteVideoRef w); [destruct (localVideoRef w) | ]; reflexivity.
Qed.

Lemma initVideo_needs_elements_and_media_witness :
  exec (initVideo sample_browser) with_channel = with_channel.
Proof.
  apply (initVideo_needs_elements_and_media sample_browser with_channel).
  left. reflexivity.
Defined.

(** X15: with both video elements mounted and the media granted,
    [initVideo] shows the stream in the local element, creates a fresh open
    connection carrying every track of the stream, in the stream's order,
    creates the offer from that connection, makes it the local description,
    binds the three signalling handlers and sends the one offer; whatever
    connection was assigned before is replaced without being closed, and
    the hooks are untouched. *)
Theorem initVideo_starts_negotiation (B : Browser) (w : World)
    (rv lv : HTMLVideoElement) (s : MediaStream) :
  remoteVideoRef w = Some rv ->
  localVideoRef w = Some lv ->
  getUserMedia B = Some s ->
  exec (initVideo B) w =
  {| state := state w;
     channel :=
       option_map
         (Channel_negotiating (createOffer B (connection_with_tracks s)))
         (channel w);
     localVideoRef := Some (set_srcObject (stream_id s) lv);
     remoteVideoRef := Some rv;
     pc := Some (setLocalDescription
                   (createOffer B (connection_with_tracks s))
                   (connection_with_tracks s));
     localStream := Some s;
     toasts := toasts w |}.
Proof.
  intros Hr Hl Hm. unfold exec, initVideo, bind, read. cbn [fst snd].
  rewrite Hr, Hl, Hm. rewrite fold_addTrack.
  destruct w as [st [c |] lv0 rv0 p0 ls0 ts]; cbn in *; subst;
    unfold Channel_negotiating, Channel_trigger, Channel_bind; cbn;
    rewrite <- ?app_assoc; reflexivity.
Qed.

Lemma initVideo_starts_negotiation_witness :
  option_map pc_senders (pc (exec (initVideo sample_browser) video_view))
    = Some [10%nat; 11%nat] /\
  outbox (exec (initVideo sample_browser) video_view)
    = [("client-offer",
        Js.obj [("type", Js.str "offer"); ("sdp", Js.str "v=0")])].
Proof.
  rewrite (initVideo_starts_negotiation sample_browser video_view
             sample_video
             {| videoWidth := 640; videoHeight := 480;
                srcObject := None; currentFrame := "" |}
             {| stream_id := 1%nat;
                getTracks := [ {| track_id := 10%nat; track_ended := false |};
                               {| track_id := 11%nat; track_ended := false |} ] |}
             eq_refl eq_refl eq_refl).
  split; reflexivity.
Defined.





(** ** Which events reach a handler *)

Lemma receive_count (B : Browser) (e : Inbound) (w : World) (c : Channel) :
  channel w = Some c ->
  exec (receive B e) w
  = exec (times (count_occ string_dec (bound c) (event_name e)) (handler B e)) w.
Proof.
  intros Hc. unfold exec, receive, bind, read. cbn [fst snd].
  rewrite Hc. reflexivity.
Qed.

Lemma provide_channel_channel (w : World) :
  channel (exec provide_channel w)
  = Some {| triggered := [];
            bound := ["banned"; "matched"; "client-message";
                      "client-disconnect"] |}.
Proof.
  destruct w as [[[|] ? ? ? ? ? ?] [?|] ? ? [?|] [?|] ?]; reflexivity.
Qed.

(** X17: once the provider has delivered a channel, each of the events
    matched, client-message, client-disconnect and banned runs its handler
    exactly once, while an offer, an answer or a candidate is dropped, no
    signalling handler being bound before [initVideo]; and while there is
    no channel no event has any effect. *)
Theorem events_after_channel (B : Browser) (e : Inbound) (w : World) :
  exec (receive B e) (exec provide_channel w)
  = (if is_signalling e then exec provide_channel w
     else exec (handler B e) (exec provide_channel w)) /\
  (channel w = None -> exec (receive B e) w = w).
Proof.
  split.
  - rewrite (receive_count B e _ _ (provide_channel_channel w)).
    destruct e; reflexivity.
  - intros Hc. unfold exec, receive, bind, read. cbn [fst snd].
    rewrite Hc. reflexivity.
Qed.

Lemma events_after_channel_witness :
  exec (receive sample_browser (In_banned 90)) initialWorld = initialWorld /\
  status (state (exec (receive sample_browser In_matched)
                   (exec provide_channel initialWorld)))
    = "Connected to stranger".
Proof.
  destruct (events_after_channel sample_browser (In_banned 90) initialWorld)
    as [_ Hnone].
  destruct (events_after_channel sample_browser In_matched initialWorld)
    as [Hsome _].
  split.
  - apply Hnone. reflexivity.
  - rewrite Hsome. reflexivity.
Defined.

(** ** What the view as written can ever do

    The view is created in text mode and the mode never changes, so the
    video elements are never mounted; from there nothing of the video path
    can happen. *)

Lemma stays_text_only_refl (w : World) : stays_text_only w w.
Proof. intros H. split; [exact H | intros e He; left; exact He]. Qed.

Lemma stays_text_only_trans (a b c : World) :
  stays_text_only a b -> stays_text_only b c -> stays_text_only a c.
Proof.
  intros Hab Hbc Ha.
  destruct (Hab Ha) as [Hb Eab]. destruct (Hbc Hb) as [Hc Ebc].
  split; [exact Hc | ].
  intros e He. destruct (Ebc e He) as [Hin | Hname]; [ | right; exact Hname].
  apply Eab, Hin.
Qed.

(** A handler that changes nothing at all in a text-idle world. *)
Ltac text_only_noop :=
  let w := fresh "w" in
  let H := fresh "H" in
  intros w H;
  destruct w as [[? ? ? ? ? ? ?] ? ? ? ? ? ?];
  destruct H as (Hm & Hl & Hr & Hp & Hs); cbn in Hm, Hl, Hr, Hp, Hs; subst;
  split; [repeat split | intros e He; left; exact He].

(** One write of a text-mode handler: the world stays text-idle and the
    outbox is the same, or grew by a client-next or a client-message, or
    belongs to a fresh channel. *)
Ltac text_only_write :=
  let H := fresh "H" in
  let e := fresh "e" in
  let He := fresh "He" in
  intros H; split; [exact H | ];
  intros e He; unfold outbox in *; cbn in *;
  try match goal with
      | w : World |- _ => destruct (channel w); cbn in *
      end;
  solve [ left; exact He
        | contradiction
        | apply in_app_or in He; destruct He as [He | [He | []]];
          [left; exact He | right; subst e; cbn; auto] ].

Ltac keeps_text_only :=
  keeps_split stays_text_only_refl stays_text_only_trans;
  try match goal with
      | |- stays_text_only _ _ => text_only_write
      end.

Lemma stopVideo_text_only : keeps stays_text_only stopVideo.
Proof. text_only_noop. Qed.

Lemma initVideo_text_only (B : Browser) : keeps stays_text_only (initVideo B).
Proof. text_only_noop. Qed.

Lemma pc_ontrack_text_only (s : nat) : keeps stays_text_only (pc_ontrack s).
Proof. text_only_noop. Qed.

Lemma on_client_offer_text_only (B : Browser) (o : SessionDescription) :
  keeps stays_text_only (on_client_offer B o).
Proof. text_only_noop. Qed.

Lemma on_client_answer_text_only (a : SessionDescription) :
  keeps stays_text_only (on_client_answer a).
Proof. text_only_noop. Qed.

Lemma on_client_ice_text_only (c : IceCandidate) :
  keeps stays_text_only (on_client_ice c).
Proof. text_only_noop. Qed.

Lemma reportUser_text_idle (B : Browser) (w : World) :
  text_idle w -> exec (reportUser B) w = exec (toast no_video_toast) w.
Proof.
  intros (_ & _ & Hr & _). apply reportUser_no_frame. left.
  rewrite captureReportFrame_result, Hr. reflexivity.
Qed.

Lemma reportUser_text_only (B : Browser) : keeps stays_text_only (reportUser B).
Proof.
  intros w H. fold (exec (reportUser B) w).
  rewrite (reportUser_text_idle B w H).
  split; [exact H | intros e He; left; exact He].
Qed.

Lemma handler_text_only (B : Browser) (e : Inbound) :
  keeps stays_text_only (handler B e).
Proof.
  destruct e; cbn [handler];
    try solve [ apply on_client_offer_text_only
              | apply on_client_answer_text_only
              | apply on_client_ice_text_only ];
    unfold on_matched, on_client_message, on_client_disconnect, on_banned,
      setStatus, setMessages, setIsBanned, setBanTimeLeft;
    keeps_text_only;
    solve [ apply initVideo_text_only | apply stopVideo_text_only ].
Qed.

Lemma step_text_only (B : Browser) (a : Action) (w : World) :
  possible a w = true -> stays_text_only w (exec (step B a) w).
Proof.
  intros Hp.
  assert (Hcb : forall w', text_idle w' -> possible a w' = true ->
                  (forall s, a <> Pc_track s) /\
                  (forall c, a <> Pc_icecandidate c)).
  { intros w' (_ & _ & _ & Hpc & _) Hp'.
    split; intros x ->; cbn in Hp'; rewrite Hpc in Hp'; discriminate. }
  intros Hidle. destruct (Hcb w Hidle Hp) as [Ht Hi]. clear Hcb Hp.
  revert Hidle. change (stays_text_only w (exec (step B a) w)).
  revert w. change (keeps stays_text_only (step B a)).
  destruct a; try (exfalso; eapply Ht; reflexivity);
    try (exfalso; eapply Hi; reflexivity); clear Ht Hi; cbn [step];
    try solve [ apply reportUser_text_only ];
    unfold provide_channel, channel_cleanup, channel_effects, handleNext,
      sendMessage, banTick, timerTick,
      receive, setBanTimeLeft_with, ban_updater,
      setStatus, setMessages, setInput, setTime, setIsBanned, setBanTimeLeft,
      trigger, bind_handler;
    keeps_text_only;
    solve [ apply stopVideo_text_only | apply handler_text_only ].
Qed.

Lemma reachable_text_only (B : Browser) (w : World) :
  reachable B w -> text_idle w /\ only_text_events initialWorld w.
Proof.
  induction 1 as [| a w Hw [Hidle Hev] Hp].
  - split; [repeat split | intros e He; left; exact He].
  - destruct (step_text_only B a w Hp Hidle) as [Hidle' Hev'].
    split; [exact Hidle' | ].
    intros e He. destruct (Hev' e He) as [Hin | Hname]; [ | right; exact Hname].
    apply Hev, Hin.
Qed.

(** A reachable world used below: the channel delivered, "hi" typed and
    sent, "next" pressed. *)
Lemma chatted_reachable :
  reachable sample_browser
    (run sample_browser
       [Channel_provided; Input_change "hi"; Click_send; Click_next]
       initialWorld).
Proof.
  cbn [run fold_left].
  repeat (apply reachable_step; [ | reflexivity]).
  apply reachable_init.
Qed.

(** X18: the video path is dead: in every world the view can reach it is
    in text mode, neither video element is mounted, and no stream and no
    peer connection has been created. *)
Theorem video_never_starts (B : Browser) (w : World) :
  reachable B w ->
  mode (state w) = mode_text /\
  localVideoRef w = None /\ remoteVideoRef w = None /\
  pc w = None /\ localStream w = None.
Proof. intros Hw. exact (proj1 (reachable_text_only B w Hw)). Qed.

Lemma video_never_starts_witness :
  pc (run sample_browser
        [Channel_provided; Input_change "hi"; Click_send; Click_next]
        initialWorld) = None.
Proof.
  destruct (video_never_starts sample_browser _ chatted_reachable)
    as (_ & _ & _ & Hpc & _).
  exact Hpc.
Defined.

(** X19: the only events the view ever emits are client-next and
    client-message: no report, offer, answer or candidate leaves it in any
    world it can reach. *)
Theorem only_next_and_message_emitted (B : Browser) (w : World)
    (event : string) (data : Js.value) :
  reachable B w ->
  In (event, data) (outbox w) ->
  event = "client-next" \/ event = "client-message".
Proof.
  intros Hw Hin.
  destruct (reachable_text_only B w Hw) as [_ Hev].
  destruct (Hev (event, data) Hin) as [Hinit | Hname].
  - destruct Hinit.
  - exact Hname.
Qed.

Lemma only_next_and_message_emitted_witness :
  "client-message" = "client-next" \/ "client-message" = "client-message".
Proof.
  apply (only_next_and_message_emitted sample_browser
           (run sample_browser
              [Channel_provided; Input_change "hi"; Click_send; Click_next]
              initialWorld)
           "client-message" (Js.str "hi") chatted_reachable).
  cbn. left. reflexivity.
Defined.

(** X20: in every world the view can reach the report button reports
    nothing: it queues the notice "No video to capture" and changes nothing
    else, the channel included. *)
Theorem report_never_sent (B : Browser) (w : World) :
  reachable B w ->
  toasts (exec (reportUser B) w)
    = (toasts w ++ [{| title := "No video to capture";
                       toast_status := "error"; duration := 2000 |}])%list /\
  channel (exec (reportUser B) w) = channel w /\
  state (exec (reportUser B) w) = state w.
Proof.
  intros Hw.
  rewrite (reportUser_text_idle B w (proj1 (reachable_text_only B w Hw))).
  repeat split.
Qed.

Lemma report_never_sent_witness :
  toasts (exec (reportUser sample_browser)
            (run sample_browser
               [Channel_provided; Input_change "hi"; Click_send; Click_next]
               initialWorld))
  = [no_video_toast].
Proof.
  destruct (report_never_sent sample_browser _ chatted_reachable) as [Ht _].
  exact Ht.
Defined.

(** ** The ban blocks nothing *)

Lemma times_with_ban (b : bool) (t : Z) (m : M unit) :
  (forall w, exec m (with_ban b t w) = with_ban b t (exec m w)) ->
  forall n w, exec (times n m) (with_ban b t w) = with_ban b t (exec (times n m) w).
Proof.
  intros Hm n. induction n as [| n IH]; intros w.
  - reflexivity.
  - change (exec (times (S n) m) (with_ban b t w))
      with (exec (times n m) (exec m (with_ban b t w))).
    rewrite Hm, IH. reflexivity.
Qed.

Lemma stopVideo_with_ban (b : bool) (t : Z) (w : World) :
  exec stopVideo (with_ban b t w) = with_ban b t (exec stopVideo w).
Proof. rewrite !stopVideo_world. destruct w; reflexivity. Qed.

Lemma initVideo_with_ban (B : Browser) (b : bool) (t : Z) (w : World) :
  exec (initVideo B) (with_ban b t w) = with_ban b t (exec (initVideo B) w).
Proof.
  destruct w as [st c [lv |] [rv |] p ls ts];
    unfold exec, initVideo, bind, read; cbn;
    destruct (getUserMedia B); reflexivity.
Qed.

(** The matched handler, by mode. *)
Lemma on_matched_world (B : Browser) (w : World) :
  exec (on_matched B) w =
  match mode (state w) with
  | mode_video => exec (initVideo B) (exec (setStatus connected) w)
  | mode_text => exec (setStatus connected) w
  end.
Proof. destruct w as [[[|] ? ? ? ? ? ?] ? ? ? ? ? ?]; reflexivity. Qed.

Lemma handler_with_ban (B : Browser) (e : Inbound) (b : bool) (t : Z) (w : World) :
  (forall d, e <> In_banned d) ->
  exec (handler B e) (with_ban b t w) = with_ban b t (exec (handler B e) w).
Proof.
  intros He. destruct e as [| msg | | d | o | a | c]; cbn [handler].
  - rewrite !on_matched_world.
    destruct (mode (state w)) eqn:Hm;
      replace (mode (state (with_ban b t w))) with (mode (state w))
        by (destruct w; reflexivity);
      rewrite Hm.
    + destruct w as [[? ? ? ? ? ? ?] ? ? ? ? ? ?]. reflexivity.
    + rewrite <- initVideo_with_ban. reflexivity.
  - destruct w as [[? ? ? ? ? ? ?] ? ? ? ? ? ?]. reflexivity.
  - destruct w as [[[|] ? ? ? ? ? ?] ? ? ? [?|] [?|] ?]; reflexivity.
  - exfalso. exact (He d eq_refl).
  - destruct w as [[? ? ? ? ? ? ?] [?|] ? ? [[[|] ? ? ? ?]|] ? ?]; reflexivity.
  - destruct w as [[? ? ? ? ? ? ?] ? ? ? [[[|] ? ? ? ?]|] ? ?]; reflexivity.
  - destruct w as [[? ? ? ? ? ? ?] ? ? ? [[[|] ? ? ? ?]|] ? ?]; reflexivity.
Qed.

Lemma step_with_ban (B : Browser) (a : Action) (b : bool) (t : Z)
    (w : World) :
  ban_blind a = true ->
  exec (step B a) (with_ban b t w) = with_ban b t (exec (step B a) w).
Proof.
  intros Ha. destruct a as [| | | | | v | | | e | s | c |]; cbn in Ha;
    try discriminate; cbn [step].
  - destruct w as [[[|] ? ? ? ? ? ?] [?|] ? ? [?|] [?|] ?]; reflexivity.
  - rewrite !handleNext_world. destruct w as [[? ? ? ? ? ? ?] ? ? ? ? ? ?].
    reflexivity.
  - destruct w as [[? ? ? [|] ? ? ?] [?|] ? ? ? ? ?]; reflexivity.
  - destruct w as [[? ? ? [|] ? ? ?] [?|] ? ? ? ? ?]; reflexivity.
  - destruct w as [[? ? ? ? ? ? ?] [?|] ? [rv |] ? ? ?];
      unfold exec, reportUser, captureReportFrame, bind, read; cbn;
      try reflexivity;
      destruct (getContext_2d B (canvas_for rv)); cbn; try reflexivity;
      destruct (Js.falsy (toDataURL_jpeg B (drawImage rv (canvas_for rv))));
      reflexivity.
  - destruct w as [[? ? ? ? ? ? ?] ? ? ? ? ? ?]. reflexivity.
  - destruct w as [[? ? st ? ? ? ?] ? ? ? ? ? ?].
    unfold exec, timerTick, bind, read, when. cbn.
    destruct (String.eqb st connected); reflexivity.
  - assert (He : forall d, e <> In_banned d)
      by (intros d ->; discriminate Ha).
    destruct (channel w) as [ch |] eqn:Hc.
    + rewrite (receive_count B e (with_ban b t w) ch)
        by (destruct w; exact Hc).
      rewrite (receive_count B e w ch Hc).
      apply times_with_ban. intros w'. apply handler_with_ban, He.
    + unfold exec, receive, bind, read. cbn [fst snd].
      replace (channel (with_ban b t w)) with (channel w) by (destruct w; reflexivity).
      rewrite Hc. reflexivity.
  - destruct w as [[? ? ? ? ? ? ?] ? ? [?|] ? ? ?]; reflexivity.
  - destruct c; destruct w as [[? ? ? ? ? ? ?] [?|] ? ? ? ? ?]; reflexivity.
  - destruct w as [[[|] ? ? ? ? ? ?] ? ? ? [?|] [?|] ?]; reflexivity.
Qed.

(** X21: the ban is display only: every action but the ban's own interval
    and the banned event does to a banned user's world exactly what it
    does to the same world without the ban, and leaves the ban state as it
    found it; a banned user sends, receives, skips and is matched like any
    other. *)
Theorem ban_blocks_nothing (B : Browser) (a : Action) (b : bool) (t : Z)
    (w : World) :
  ban_blind a = true ->
  exec (step B a) (with_ban b t w) = with_ban b t (exec (step B a) w).
Proof. apply step_with_ban. Qed.

Lemma ban_blocks_nothing_witness :
  outbox (exec (step sample_browser Click_send)
            (with_ban true 90 typed_with_channel))
  = [("client-message", Js.str "hi")].
Proof.
  rewrite (ban_blocks_nothing sample_browser Click_send true 90
             typed_with_channel eq_refl).
  reflexivity.
Defined.

(** ** What is shown *)

(** X22: the elapsed time is on display exactly while it is running: when
    the status is "Connected to stranger" the status bar reads that status
    followed by the formatted session time, and a firing of the timer adds
    one second; under any other status the bar shows the status alone and
    a firing changes nothing. *)
Theorem header_shows_running_timer (w : World) :
  (status (state w) = "Connected to stranger" ->
     header (state w)
       = "Connected to stranger | " ++ formatTime (time (state w)) /\
     time (state (exec timerTick w)) = time (state w) + 1) /\
  (status (state w) <> "Connected to stranger" ->
     header (state w) = status (state w) ++ " " /\
     exec timerTick w = w).
Proof.
  split.
  - intros Hs. split.
    + unfold header. rewrite Hs. reflexivity.
    + rewrite (timerTick_connected w Hs).
      destruct w as [[? ? ? ? ? ? ?] ? ? ? ? ? ?]. reflexivity.
  - intros Hs. split.
    + unfold header. apply String.eqb_neq in Hs.
      fold connected in Hs. rewrite Hs. reflexivity.
    + apply timerTick_not_connected, Hs.
Qed.

Lemma header_shows_running_timer_witness :
  header (state (exec (times 75 timerTick)
                   (exec (on_matched sample_browser) with_channel)))
    = "Connected to stranger | 01:15" /\
  header (state with_channel) = "Looking for someone... ".
Proof.
  destruct (header_shows_running_timer
              (exec (times 75 timerTick)
                 (exec (on_matched sample_browser) with_channel)))
    as [Hon _].
  destruct (header_shows_running_timer with_channel) as [_ Hoff].
  split.
  - destruct Hon as [Hh _]; [reflexivity | ]. exact Hh.
  - destruct Hoff as [Hh _]; [cbn; discriminate | ]. exact Hh.
Defined.

(** X23: in text mode the list on screen follows the conversation: a sent
    message adds one entry at the end, aligned right, with the text that
    was in the input, and a received one adds one entry at the end,
    aligned left, with the text received; the entries before stay. *)
Theorem bubbles_follow_messages (w : World) (msg : string) :
  mode (state w) = mode_text ->
  (input (state w) <> "" ->
     bubbles (state (exec sendMessage w))
       = (bubbles (state w) ++ [("right", input (state w))])%list) /\
  bubbles (state (exec (on_client_message msg) w))
    = (bubbles (state w) ++ [("left", msg)])%list.
Proof.
  intros Hm. split.
  - intros Hin. rewrite (sendMessage_world w Hin).
    unfold bubbles. cbn. rewrite Hm, map_app. reflexivity.
  - destruct w as [[md ? ? ? ? ? ?] ? ? ? ? ? ?]. cbn in Hm. subst md.
    unfold bubbles. cbn. rewrite map_app. reflexivity.
Qed.

Lemma bubbles_follow_messages_witness :
  bubbles (state (exec sendMessage typed_with_channel)) = [("right", "hi")] /\
  bubbles (state (exec (on_client_message "yo") typed_with_channel))
    = [("left", "yo")].
Proof.
  destruct (bubbles_follow_messages typed_with_channel "yo" eq_refl)
    as [Hsend Hrecv].
  split.
  - apply Hsend. cbn. discriminate.
  - exact Hrecv.
Defined.

(** ** The landing page *)

Lemma Home_clicks_succ (n : nat) (s : Home.State) :
  Home.redirectToChat (Home.clicks (S n) s) = true /\
  Home.startPusher (Home.clicks (S n) s) = true.
Proof.
  revert s. induction n as [| n IH]; intros s.
  - split; reflexivity.
  - apply (IH (Home.onSubmit s)).
Qed.

(** X24: on a landing page that does not yet show the chat, the chat view
    is rendered exactly once the start button has been clicked at least
    once, further clicks keep it, and whenever the chat is rendered the
    channel has been asked for. *)
Theorem Home_chat_only_after_start (n : nat) (s : Home.State) :
  Home.redirectToChat s = false ->
  (Home.render (Home.clicks n s) = Home.Chat_view <-> (0 < n)%nat) /\
  (Home.render (Home.clicks n s) = Home.Chat_view ->
     Home.startPusher (Home.clicks n s) = true).
Proof.
  intros Hs. destruct n as [| n].
  - unfold Home.render. cbn. rewrite Hs.
    split; [split; [discriminate | lia] | discriminate].
  - destruct (Home_clicks_succ n s) as [Hr Hp].
    unfold Home.render. rewrite Hr.
    split; [split; [lia | reflexivity] | intros _; exact Hp].
Qed.

Lemma Home_chat_only_after_start_witness :
  Home.render
    (Home.clicks 2 {| Home.redirectToChat := false; Home.startPusher := false |})
    = Home.Chat_view /\
  Home.startPusher
    (Home.clicks 2 {| Home.redirectToChat := false; Home.startPusher := false |})
    = true.
Proof.
  destruct (Home_chat_only_after_start 2
              {| Home.redirectToChat := false; Home.startPusher := false |}
              eq_refl) as [[_ Hshow] Hpusher].
  assert (Hview := Hshow ltac:(lia)).
  split; [exact Hview | exact (Hpusher Hview)].
Defined.

(** ** Invariants of the hooks *)

Lemma stays_known_status_refl (w : World) : stays_known_status w w.
Proof. intros H. exact H. Qed.

Lemma stays_known_status_trans (a b c : World) :
  stays_known_status a b -> stays_known_status b c -> stays_known_status a c.
Proof. intros Hab Hbc H. apply Hbc, Hab, H. Qed.

Ltac known_status_write :=
  let H := fresh "H" in
  intros H; unfold known_status in *; cbn -[banned_status];
  solve [ exact H
        | left; reflexivity
        | right; left; reflexivity
        | right; right; left; reflexivity
        | right; right; right; eexists; reflexivity ].

Ltac keeps_known_status :=
  keeps_split stays_known_status_refl stays_known_status_trans;
  try match goal with
      | |- stays_known_status _ _ => known_status_write
      end.

Lemma stopVideo_known_status : keeps stays_known_status stopVideo.
Proof. unfold stopVideo. keeps_known_status. Qed.

Lemma initVideo_known_status (B : Browser) :
  keeps stays_known_status (initVideo B).
Proof. unfold initVideo, bind_handler, trigger. keeps_known_status. Qed.

Lemma handler_known_status (B : Browser) (e : Inbound) :
  keeps stays_known_status (handler B e).
Proof.
  destruct e; cbn [handler];
    unfold on_matched, on_client_message, on_client_disconnect, on_banned,
      on_client_offer, on_client_answer, on_client_ice,
      setStatus, setMessages, setIsBanned, setBanTimeLeft, trigger;
    keeps_known_status;
    solve [ apply initVideo_known_status | apply stopVideo_known_status ].
Qed.

Lemma step_known_status (B : Browser) (a : Action) :
  keeps stays_known_status (step B a).
Proof.
  destruct a; cbn [step];
    unfold provide_channel, channel_cleanup, channel_effects, handleNext,
      sendMessage, reportUser, captureReportFrame, banTick, timerTick,
      receive, pc_ontrack, pc_onicecandidate, setBanTimeLeft_with, ban_updater,
      setStatus, setMessages, setInput, setTime, setIsBanned, setBanTimeLeft,
      trigger, bind_handler, toast;
    keeps_known_status;
    solve [ apply stopVideo_known_status | apply handler_known_status ].
Qed.

(** X25: the status text is always one of four kinds: after any sequence
    of actions on the view it is "Looking for someone...", "Connected to
    stranger", "Stranger disconnected", or "You are banned (...)" around
    the formatted remaining time. *)
Theorem status_is_one_of_four (B : Browser) (l : list Action) :
  status (state (run B l initialWorld)) = "Looking for someone..." \/
  status (state (run B l initialWorld)) = "Connected to stranger" \/
  status (state (run B l initialWorld)) = "Stranger disconnected" \/
  exists t,
    status (state (run B l initialWorld))
    = "You are banned (" ++ formatTime t ++ ")".
Proof.
  apply (keeps_run stays_known_status stays_known_status_refl
           stays_known_status_trans B (step_known_status B) l initialWorld).
  left. reflexivity.
Qed.

(** *** The ban state *)

Lemma with_ban_own (w : World) :
  with_ban (isBanned (state w)) (banTimeLeft (state w)) w = w.
Proof. destruct w as [[? ? ? ? ? ? ?] ? ? ? ? ? ?]. reflexivity. Qed.

Lemma step_keeps_ban (B : Browser) (a : Action) (w : World) :
  ban_blind a = true ->
  isBanned (state (exec (step B a) w)) = isBanned (state w) /\
  banTimeLeft (state (exec (step B a) w)) = banTimeLeft (state w).
Proof.
  intros Ha.
  rewrite <- (with_ban_own w) at 1 3.
  rewrite (step_with_ban B a _ _ w Ha).
  split; reflexivity.
Qed.

Lemma on_banned_times_consistent (d : Z) (n : nat) (w : World) :
  ban_consistent w -> ban_consistent (exec (times n (on_banned d)) w).
Proof.
  intros Hw. destruct n as [| n].
  - exact Hw.
  - rewrite times_succ_last. intros Hoff. discriminate Hoff.
Qed.

Lemma step_ban_consistent (B : Browser) (a : Action) (w : World) :
  ban_consistent w -> ban_consistent (exec (step B a) w).
Proof.
  intros Hw.
  destruct (ban_blind a) eqn:Ha.
  - destruct (step_keeps_ban B a w Ha) as [Hb Ht].
    unfold ban_consistent. rewrite Hb, Ht. exact Hw.
  - destruct a as [| | | | | v | | | e | s | c |]; try discriminate Ha.
    + cbn [step]. destruct (isBanned (state w)) eqn:Hb.
      * rewrite (banTick_world w Hb). unfold ban_consistent.
        cbn -[Z.leb Z.sub banned_status].
        destruct (banTimeLeft (state w) <=? 1)%Z; [reflexivity | discriminate].
      * rewrite (banTick_inactive w Hb). exact Hw.
    + destruct e; try discriminate Ha. cbn [step].
      destruct (channel w) as [ch |] eqn:Hc.
      * rewrite (receive_count B _ w ch Hc). cbn [handler].
        apply on_banned_times_consistent, Hw.
      * unfold exec, receive, bind, read. cbn [fst snd]. rewrite Hc. exact Hw.
Qed.

(** X26: the two parts of the ban state agree: after any sequence of
    actions on the view, whenever the ban flag is down the remaining
    seconds are 0. *)
Theorem no_ban_no_seconds (B : Browser) (l : list Action) :
  isBanned (state (run B l initialWorld)) = false ->
  banTimeLeft (state (run B l initialWorld)) = 0.
Proof.
  assert (H : forall w, ban_consistent w -> ban_consistent (run B l w)).
  { induction l as [| a l IH]; intros w Hw; cbn [run fold_left].
    - exact Hw.
    - apply IH, step_ban_consistent, Hw. }
  apply (H initialWorld). intros _. reflexivity.
Qed.

Lemma no_ban_no_seconds_witness :
  banTimeLeft
    (state (run sample_browser
              [Channel_provided; Receive (In_banned 2); Interval_ban;
               Interval_ban; Click_next]
              initialWorld)) = 0.
Proof.
  apply (no_ban_no_seconds sample_browser
           [Channel_provided; Receive (In_banned 2); Interval_ban;
            Interval_ban; Click_next]).
  reflexivity.
Defined.

(** *** The notices *)

Lemma same_toasts_refl (w : World) : same_toasts w w.
Proof. reflexivity. Qed.

Lemma same_toasts_trans (a b c : World) :
  same_toasts a b -> same_toasts b c -> same_toasts a c.
Proof. unfold same_toasts. congruence. Qed.

Ltac keeps_toasts :=
  keeps_split same_toasts_refl same_toasts_trans; try reflexivity.

Lemma stopVideo_same_toasts : keeps same_toasts stopVideo.
Proof. unfold stopVideo. keeps_toasts. Qed.

Lemma initVideo_same_toasts (B : Browser) : keeps same_toasts (initVideo B).
Proof. unfold initVideo, bind_handler, trigger. keeps_toasts. Qed.

Lemma handler_same_toasts (B : Browser) (e : Inbound) :
  keeps same_toasts (handler B e).
Proof.
  destruct e; cbn [handler];
    unfold on_matched, on_client_message, on_client_disconnect, on_banned,
      on_client_offer, on_client_answer, on_client_ice,
      setStatus, setMessages, setIsBanned, setBanTimeLeft, trigger;
    keeps_toasts;
    solve [ apply initVideo_same_toasts | apply stopVideo_same_toasts ].
Qed.

Lemma step_same_toasts (B : Browser) (a : Action) :
  a <> Click_report -> keeps same_toasts (step B a).
Proof.
  intros Ha. destruct a; try congruence; clear Ha; cbn [step];
    unfold provide_channel, channel_cleanup, channel_effects, handleNext,
      sendMessage, banTick, timerTick,
      receive, pc_ontrack, pc_onicecandidate, setBanTimeLeft_with, ban_updater,
      setStatus, setMessages, setInput, setTime, setIsBanned, setBanTimeLeft,
      trigger, bind_handler;
    keeps_toasts;
    solve [ apply stopVideo_same_toasts | apply handler_same_toasts ].
Qed.

(** X27: notices come from the report button alone, one per press: a
    press queues exactly one notice, "No video to capture" or "User
    reported", each shown for 2000 ms, and no other action queues or
    removes any. *)
Theorem one_notice_per_report (B : Browser) (a : Action) (w : World) :
  (a = Click_report ->
     exists t,
       toasts (exec (step B a) w) = (toasts w ++ [t])%list /\
       (t = {| title := "No video to capture"; toast_status := "error";
               duration := 2000 |} \/
        t = {| title := "User reported"; toast_status := "success";
               duration := 2000 |})) /\
  (a <> Click_report -> toasts (exec (step B a) w) = toasts w).
Proof.
  split.
  - intros ->. cbn [step].
    pose proof (captureReportFrame_result B w) as Hcap.
    destruct (fst (captureReportFrame B w)) as [url |] eqn:Hf.
    + destruct (string_dec url "") as [-> | Hne].
      * exists no_video_toast.
        rewrite reportUser_no_frame by (right; exact Hf).
        split; [reflexivity | left; reflexivity].
      * exists reported_toast.
        rewrite (reportUser_frame B w url Hf Hne).
        split; [reflexivity | right; reflexivity].
    + exists no_video_toast.
      rewrite reportUser_no_frame by (left; exact Hf).
      split; [reflexivity | left; reflexivity].
  - intros Ha. exact (step_same_toasts B a Ha w).
Qed.

Lemma one_notice_per_report_witness :
  toasts (exec (step sample_browser Click_next)
            (exec (step sample_browser Click_report) watching))
  = [reported_toast].
Proof.
  destruct (one_notice_per_report sample_browser Click_next
              (exec (step sample_browser Click_report) watching))
    as [_ Hother].
  rewrite Hother by discriminate.
  destruct (one_notice_per_report sample_browser Click_report watching)
    as [Hreport _].
  destruct (Hreport eq_refl) as (t & Ht & _).
  reflexivity.
Defined.

(** ** The report button, where the view can be *)

(** C4: in every world the view can reach, and in every world with a
    channel, the report action does as follows.  When no frame can be
    captured (no remote video element, no 2D context, or an empty data
    URL) it queues the notice "No video to capture" (status error, 2000
    ms) and emits nothing; when a frame is captured it emits exactly one
    client-report event and queues the notice "User reported" (status
    success, 2000 ms). *)
Theorem reportUser_warns_or_reports (B : Browser) (w : World) :
  reachable B w \/ channel w <> None ->
  ((remoteVideoRef w = None \/
    exists v, remoteVideoRef w = Some v /\
      (getContext_2d B (canvas_for v) = false \/
       toDataURL_jpeg B (drawImage v (canvas_for v)) = "")) ->
   toasts (exec (reportUser B) w)
     = (toasts w ++ [{| title := "No video to capture";
                        toast_status := "error"; duration := 2000 |}])%list /\
   outbox (exec (reportUser B) w) = outbox w) /\
  (forall v, remoteVideoRef w = Some v ->
     getContext_2d B (canvas_for v) = true ->
     toDataURL_jpeg B (drawImage v (canvas_for v)) <> "" ->
     toasts (exec (reportUser B) w)
       = (toasts w ++ [{| title := "User reported";
                          toast_status := "success"; duration := 2000 |}])%list /\
     outbox (exec (reportUser B) w)
       = (outbox w
          ++ [("client-report",
               Js.obj [("screenshot",
                        Js.str (toDataURL_jpeg B (drawImage v (canvas_for v))));
                       ("reason", Js.str "Inappropriate behavior");
                       ("timestamp", Js.num (Date_now B))])])%list).
Proof.
  intros Hw.
  destruct (reportUser_by_frame_and_channel B w) as [Hno Hyes].
  split.
  - intros Hnone. destruct (Hno Hnone) as [Ht Hc].
    split; [exact Ht | ]. unfold outbox. rewrite Hc. reflexivity.
  - intros v Hv Hctx Hurl.
    destruct (Hyes v Hv Hctx Hurl) as (Ht & Hsome & _).
    split; [exact Ht | ].
    destruct Hw as [Hreach | Hch].
    + destruct (reachable_text_only B w Hreach) as [(_ & _ & Hr & _) _].
      rewrite Hr in Hv. discriminate Hv.
    + destruct (channel w) as [c |] eqn:Hc; [ | congruence].
      rewrite (Hsome c eq_refl). unfold outbox. rewrite Hc. reflexivity.
Qed.

Lemma reportUser_warns_or_reports_witness :
  toasts (exec (reportUser sample_browser)
            (run sample_browser
               [Channel_provided; Input_change "hi"; Click_send; Click_next]
               initialWorld))
    = [no_video_toast] /\
  outbox (exec (reportUser sample_browser)
            (run sample_browser
               [Channel_provided; Input_change "hi"; Click_send; Click_next]
               initialWorld))
    = [("client-message", Js.str "hi"); ("client-next", Js.undefined)] /\
  toasts (exec (reportUser sample_browser) watching) = [reported_toast] /\
  outbox (exec (reportUser sample_browser) watching)
    = [("client-report",
        Js.obj [("screenshot", Js.str "data:image/jpeg;base64,/9j/4AAQ");
                ("reason", Js.str "Inappropriate behavior");
                ("timestamp", Js.num 1700000000000)])].
Proof.
  destruct (reportUser_warns_or_reports sample_browser _
              (or_introl chatted_reachable)) as [Hno _].
  destruct (reportUser_warns_or_reports sample_browser watching) as [_ Hyes];
    [right; discriminate | ].
  destruct Hno as [Ht Ho]; [left; reflexivity | ].
  destruct (Hyes sample_video eq_refl eq_refl) as [Ht' Ho'];
    [cbn; discriminate | ].
  split; [exact Ht | split; [exact Ho | split; [exact Ht' | exact Ho']]].
Defined.
